(** * Financial-Metrics-Analyzer: the metric computation pipeline

    Shallow embedding of [finance_clean/fetch.py], [finance_clean/normalize.py],
    [finance_clean/validate.py] and [finance_clean/compute.py].

    Python floats are IEEE-754 binary64 values; they are modelled by the
    primitive floats of the Standard Library, so that [nan], the infinities,
    overflow and the comparisons behave here as they do in the code. *)

From Stdlib Require Import ZArith List String Ascii Bool Lia.
From Stdlib Require Import Floats DecimalString Sorted Permutation.
Import ListNotations.

Set Warnings "-inexact-float,-register-all".
Local Open Scope string_scope.
Local Open Scope float_scope.

(** ** Python values *)

(** What a Python call yields: a value, or an exception carrying [str(e)]. *)
Inductive result (A : Type) : Type :=
| Ok (a : A)
| Raise (msg : string).
Arguments Ok {A} a.
Arguments Raise {A} msg.

Definition bind {A B : Type} (r : result A) (k : A -> result B) : result B :=
  match r with
  | Ok a => k a
  | Raise msg => Raise msg
  end.

Notation "x <- r ;; k" := (bind r (fun x => k))
  (at level 61, r at next level, right associativity).

(** The values found in the market-info snapshot: [None], a number (Python
    ints are identified with the float they convert to) or a string. *)
Inductive pyval : Type :=
| PyNone
| PyNum (f : float)
| PyStr (s : string).

(** A [dict] with string keys, in insertion order. *)
Definition dict (V : Type) : Type := list (string * V).

Fixpoint dict_get {V : Type} (d : dict V) (k : string) : option V :=
  match d with
  | [] => None
  | (k', v) :: rest => if (k' =? k)%string then Some v else dict_get rest k
  end.

(** [d[k] = v]: overwrite in place, or append a new key. *)
Fixpoint dict_set {V : Type} (d : dict V) (k : string) (v : V) : dict V :=
  match d with
  | [] => [(k, v)]
  | (k', v') :: rest =>
      if (k' =? k)%string then (k, v) :: rest else (k', v') :: dict_set rest k v
  end.

(** [d.get(k, default)]. *)
Definition get_default {V : Type} (d : dict V) (k : string) (default : V) : V :=
  match dict_get d k with
  | Some v => v
  | None => default
  end.

(** [pd.isna] on a scalar. *)
Definition isna (v : pyval) : bool :=
  match v with
  | PyNone => true
  | PyNum f => is_nan f
  | PyStr _ => false
  end.

(** Truth value of a scalar, as used by [or]: NaN is true, both zeros are false. *)
Definition truthy (v : pyval) : bool :=
  match v with
  | PyNone => false
  | PyNum f => negb (f =? 0)
  | PyStr s => negb (s =? "")%string
  end.

(** [not pd.isna(v) and v > 0]: the comparison is only reached when [v] is not
    missing, and raises [TypeError] on a string. *)
Definition notna_and_positive (v : pyval) : result bool :=
  match v with
  | PyNone => Ok false
  | PyNum f => Ok (negb (is_nan f) && (0 <? f))
  | PyStr _ => Raise "'>' not supported between instances of 'str' and 'int'"
  end.

(** [v <= v]. *)
Definition le_self (v : pyval) : result bool :=
  match v with
  | PyNone => Raise "'<=' not supported between instances of 'NoneType' and 'NoneType'"
  | PyNum f => Ok (f <=? f)
  | PyStr _ => Ok true
  end.

(** The output document is a tree of dicts, lists and scalars. *)
Inductive json : Type :=
| JNull
| JBool (b : bool)
| JInt (z : Z)
| JNum (f : float)
| JStr (s : string)
| JList (items : list json)
| JObj (fields : list (string * json)).

Definition json_of_pyval (v : pyval) : json :=
  match v with
  | PyNone => JNull
  | PyNum f => JNum f
  | PyStr s => JStr s
  end.

(** [doc[k]] *)
Definition field (k : string) (doc : json) : option json :=
  match doc with
  | JObj fields => dict_get fields k
  | _ => None
  end.

(** [doc[k1][k2]...] *)
Fixpoint at_path (path : list string) (doc : json) : option json :=
  match path with
  | [] => Some doc
  | k :: rest =>
      match field k doc with
      | Some sub => at_path rest sub
      | None => None
      end
  end.

(** The scalar leaves of a document, left to right. *)
Fixpoint leaves (doc : json) : list json :=
  match doc with
  | JList items => flat_map leaves items
  | JObj fields => flat_map (fun kv => leaves (snd kv)) fields
  | scalar => [scalar]
  end.

(** A leaf that is a NaN or infinite float. *)
Definition non_finite_leaf (doc : json) : bool :=
  match doc with
  | JNum f => is_nan f || is_infinity f
  | _ => false
  end.


Definition string_of_nat (n : nat) : string :=
  NilEmpty.string_of_uint (Nat.to_uint n).

(** ** Statement tables *)

(** A fiscal-period column label, modelled by its [str] form (ISO dates are
    ordered chronologically by string order). *)
Definition period : Type := string.

(** A [pd.DataFrame] of float64 cells: the column labels and the labelled
    rows, each row as wide as the column list.  A missing cell is NaN.  The
    labels of an axis are distinct, as they are in the statements the provider
    returns: [df.loc[name]] is then a Series and [value[year_idx]] a scalar,
    which is how the lookups below read them. *)
Record DataFrame : Type := mkDataFrame {
  columns : list period;
  rows : list (string * list float)
}.

(** [df.index] *)
Definition index (df : DataFrame) : list string := map fst (rows df).

(** [df.empty]: no rows or no columns. *)
Definition empty (df : DataFrame) : bool :=
  match columns df, rows df with
  | [], _ => true
  | _, [] => true
  | _, _ => false
  end.

Definition mem (x : string) (l : list string) : bool :=
  existsb (String.eqb x) l.

(** [df.loc[name]] when the label is in the index: the row as a Series,
    that is the cells paired with the column labels. *)
Fixpoint loc (rs : list (string * list float)) (name : string) : option (list float) :=
  match rs with
  | [] => None
  | (label, cells) :: rest => if (label =? name)%string then Some cells else loc rest name
  end.

Definition series (df : DataFrame) (cells : list float) : list (period * float) :=
  combine (columns df) cells.

(** ** [fetch.py] *)

(** What the data provider hands back for a ticker: reading a property may
    raise, and a statement may be [None]. *)
Inductive yf_ticker : Type :=
| YfFault (msg : string)
| YfData (income balance cashflow : option DataFrame) (info : dict pyval).

Record RawData : Type := mkRawData {
  raw_income : DataFrame;
  raw_balance : DataFrame;
  raw_cashflow : DataFrame;
  raw_info : dict pyval
}.

Definition no_data (o : option DataFrame) : bool :=
  match o with
  | None => true
  | Some df => empty df
  end.

(** [get_financials(ticker)]: every fault, the one it raises itself included,
    is re-raised with the "Failed to fetch" prefix. *)
Definition get_financials (ticker : string) (t : yf_ticker) : result RawData :=
  let failed (e : string) := Raise ("Failed to fetch data for " ++ ticker ++ ": " ++ e) in
  match t with
  | YfFault msg => failed msg
  | YfData income balance cashflow info =>
      match income, balance, cashflow with
      | Some i, Some b, Some c =>
          if no_data income || no_data balance || no_data cashflow
          then failed ("No financial data available for ticker: " ++ ticker)
          else Ok (mkRawData i b c info)
      | _, _, _ => failed ("No financial data available for ticker: " ++ ticker)
      end
  end.

(** ** [normalize.py] *)

Definition field_mappings : dict string :=
  [ ("Total Revenue", "TotalRevenue");
    ("Revenue", "TotalRevenue");
    ("Operating Revenue", "TotalRevenue");
    ("Net Sales", "TotalRevenue");
    ("Sales", "TotalRevenue");
    ("Cost Of Revenue", "CostOfRevenue");
    ("Cost of Goods Sold", "CostOfRevenue");
    ("COGS", "CostOfRevenue");
    ("Gross Profit", "GrossProfit");
    ("Gross Income", "GrossProfit");
    ("Operating Income", "OperatingIncome");
    ("EBIT", "OperatingIncome");
    ("Earnings Before Interest And Taxes", "OperatingIncome");
    ("Net Income", "NetIncome");
    ("Net Earnings", "NetIncome");
    ("Net Income Common Stockholders", "NetIncome");
    ("Pretax Income", "PretaxIncome");
    ("Income Before Tax", "PretaxIncome");
    ("Earnings Before Tax", "PretaxIncome");
    ("Selling General Administrative", "SellingGeneralAdministrative");
    ("Selling General And Administration", "SellingGeneralAdministrative");
    ("SG&A", "SellingGeneralAdministrative");
    ("Selling, General & Administrative", "SellingGeneralAdministrative");
    ("Income Tax Expense", "IncomeTaxExpense");
    ("Tax Provision", "IncomeTaxExpense");
    ("Income Tax", "IncomeTaxExpense");
    ("Interest Expense", "InterestExpense");
    ("Interest Paid", "InterestExpense");
    ("Total Assets", "TotalAssets");
    ("Total Current Assets", "TotalCurrentAssets");
    ("Current Assets", "TotalCurrentAssets");
    ("Total Liabilities", "TotalLiabilities");
    ("Total Liab", "TotalLiabilities");
    ("Total Liabilities Net Minority Interest", "TotalLiabilities");
    ("Total Liabilities And Stockholders Equity", "TotalLiabilities");
    ("Total Current Liabilities", "TotalCurrentLiabilities");
    ("Current Liabilities", "TotalCurrentLiabilities");
    ("Total Stockholder Equity", "TotalStockholderEquity");
    ("Total Equity", "TotalStockholderEquity");
    ("Stockholders Equity", "TotalStockholderEquity");
    ("Inventory", "Inventory");
    ("Net PPE", "NetPPE");
    ("Property Plant Equipment", "NetPPE");
    ("Net Property Plant Equipment", "NetPPE");
    ("Retained Earnings", "RetainedEarnings");
    ("Net Receivables", "NetReceivables");
    ("Accounts Receivable", "NetReceivables");
    ("Total Cash From Operating Activities", "TotalCashFromOperatingActivities");
    ("Operating Cash Flow", "TotalCashFromOperatingActivities");
    ("Cash From Operations", "TotalCashFromOperatingActivities");
    ("Depreciation", "Depreciation");
    ("Depreciation And Amortization", "Depreciation");
    ("Cash Dividends Paid", "CashDividendsPaid");
    ("Dividends Paid", "CashDividendsPaid") ].

(** The loop of [normalize_field_names]: relabel, keep the first row of each
    normalized name. *)
Fixpoint normalize_rows (seen_normalized : list string) (rs : list (string * list float))
  : list (string * list float) :=
  match rs with
  | [] => []
  | (field_name, cells) :: rest =>
      let normalized_name := get_default field_mappings field_name field_name in
      if mem normalized_name seen_normalized
      then normalize_rows seen_normalized rest
      else (normalized_name, cells) :: normalize_rows (normalized_name :: seen_normalized) rest
  end.

Definition normalize_field_names (df : DataFrame) : DataFrame :=
  mkDataFrame (columns df) (normalize_rows [] (rows df)).

(** [df.apply(pd.to_numeric, errors='coerce')]: the identity on float64 cells. *)
Definition to_numeric (df : DataFrame) : DataFrame := df.

(** [set(l)], as the list of its distinct elements. *)
Definition py_set (l : list string) : list string := nodup string_dec l.

Definition intersection (a b : list string) : list string :=
  filter (fun x => mem x b) a.

(** [sorted(s, reverse=True)] on distinct strings. *)
Fixpoint insert_desc (x : string) (l : list string) : list string :=
  match l with
  | [] => [x]
  | y :: rest => if String.leb y x then x :: l else y :: insert_desc x rest
  end.

Definition sorted_reverse (l : list string) : list string :=
  fold_right insert_desc [] l.

Record Selected : Type := mkSelected {
  income : DataFrame;
  balance : DataFrame;
  cashflow : DataFrame;
  info : dict pyval;
  years : list period;
  currency : pyval
}.

Definition common_years (raw : RawData) : list period :=
  intersection
    (intersection (py_set (columns (raw_income raw))) (py_set (columns (raw_balance raw))))
    (py_set (columns (raw_cashflow raw))).

Definition select_two_years (financial_data : RawData) : result Selected :=
  let common := common_years financial_data in
  if (List.length common <? 2)%nat
  then Raise ("Insufficient common years: " ++ string_of_nat (List.length common) ++ " found")
  else
    let sorted_years := firstn 2 (sorted_reverse common) in
    Ok (mkSelected
          (to_numeric (normalize_field_names (raw_income financial_data)))
          (to_numeric (normalize_field_names (raw_balance financial_data)))
          (to_numeric (normalize_field_names (raw_cashflow financial_data)))
          (raw_info financial_data)
          sorted_years
          (get_default (raw_info financial_data) "currency" (PyStr "USD"))).

(** [for val in value: if not pd.isna(val): return float(val)] *)
Fixpoint first_notna (cells : list float) : option float :=
  match cells with
  | [] => None
  | val :: rest => if is_nan val then first_notna rest else Some val
  end.

(** [value[year_idx]] on a Series whose index holds [year_idx]. *)
Fixpoint series_get (s : list (period * float)) (year_idx : period) : option float :=
  match s with
  | [] => None
  | (y, val) :: rest => if (y =? year_idx)%string then Some val else series_get rest year_idx
  end.

(** [safe_get_field(df, field_names, year_idx, default)]: the first name found
    in the index decides the result.  [validate.py] holds a second copy of the
    function, with the same text. *)
Fixpoint safe_get_field (df : DataFrame) (field_names : list string)
    (year_idx : option period) (default : float) : float :=
  match field_names with
  | [] => default
  | field_name :: rest =>
      match loc (rows df) field_name with
      | None => safe_get_field df rest year_idx default
      | Some cells =>
          let value := series df cells in
          let first_non_null :=
            match first_notna (map snd value) with
            | Some val => val
            | None => default
            end in
          match year_idx with
          | Some y =>
              if mem y (map fst value)
              then
                match series_get value y with
                | Some val => if is_nan val then default else val
                | None => default
                end
              else first_non_null
          | None => first_non_null
          end
      end
  end.

(** [abs(denominator) < 1e-12]: the threshold literal of [safe_div]. *)
Definition eps_div : float := 1e-12.

(** [safe_div(numerator, denominator)] on two Python floats.  [pd.isna] on a
    float is the NaN test; the [try] never fires on floats, since the only
    division executed has [abs(denominator) >= 1e-12]. *)
Definition safe_div (numerator denominator : float) : float :=
  if is_nan numerator || is_nan denominator then nan
  else if abs denominator <? eps_div then nan
  else
    let result := numerator / denominator in
    if is_infinity result then nan else result.

(** [safe_div] on operands read from the info snapshot: [None] is missing,
    and a string operand raises [TypeError] inside the [try], which returns
    the default. *)
Definition safe_div_v (numerator denominator : pyval) : float :=
  match numerator, denominator with
  | PyNum a, PyNum b => safe_div a b
  | _, _ => nan
  end.

(** [avg(x, y)] *)
Definition avg (x y : float) : float :=
  if is_nan x || is_nan y then nan
  else if negb (is_finite x) || negb (is_finite y) then nan
  else (x + y) / 2.

(** [np.isnan] and [np.isinf] take a Python int through a 64-bit integer
    array, signed or unsigned; an int outside both ranges becomes an object
    array, on which the ufunc raises [TypeError]. *)
Definition fits_int64_or_uint64 (z : Z) : bool :=
  ((- 2 ^ 63 <=? z) && (z <? 2 ^ 64))%Z.

Definition isnan_type_error : string :=
  "ufunc 'isnan' not supported for the input types, and the inputs could not be safely coerced to any supported types according to the casting rule ''safe''".

(** The items of a comprehension, evaluated in order; the first exception
    ends it. *)
Definition map_result {A B : Type} (f : A -> result B) : list A -> result (list B) :=
  fix go (l : list A) : result (list B) :=
    match l with
    | [] => Ok []
    | a :: rest => b <- f a ;; bs <- go rest ;; Ok (b :: bs)
    end.

(** [sanitize_for_json(value)].  A [bool] is an [int] for [isinstance] and
    is neither NaN nor infinite. *)
Fixpoint sanitize_for_json (value : json) : result json :=
  match value with
  | JInt z => if fits_int64_or_uint64 z then Ok (JInt z) else Raise isnan_type_error
  | JNum f => Ok (if is_nan f || is_infinity f then JNull else JNum f)
  | JObj fields =>
      fields' <- map_result (fun kv => v <- sanitize_for_json (snd kv) ;; Ok (fst kv, v))
                            fields ;;
      Ok (JObj fields')
  | JList items =>
      items' <- map_result sanitize_for_json items ;;
      Ok (JList items')
  | other => Ok other
  end.

(** An int leaf on which [np.isnan] raises. *)
Definition oversized_int_leaf (doc : json) : bool :=
  match doc with
  | JInt z => negb (fits_int64_or_uint64 z)
  | _ => false
  end.

(** ** The builtin [round]

    [round(x, ndigits)] on a float is correctly rounded: the exact binary
    value of [x] is rounded to the nearest multiple of [10^-ndigits], ties to
    the even multiple, and the float nearest to that decimal is returned.
    NaN, the infinities and the zeros round to themselves. *)

(** Nearest integer to [a / b] for [0 <= a] and [0 < b], ties to even. *)
Definition div_half_even (a b : Z) : Z :=
  let q := (a / b)%Z in
  match (2 * (a mod b) ?= b)%Z with
  | Lt => q
  | Gt => (q + 1)%Z
  | Eq => if Z.even q then q else (q + 1)%Z
  end.

(** [|x| * 10^ndigits] rounded to an integer, for [|x| = m * 2^e]. *)
Definition scaled_digits (ndigits : nat) (m : positive) (e : Z) : Z :=
  let p := (10 ^ Z.of_nat ndigits)%Z in
  match e with
  | Zneg k => div_half_even (Zpos m * p) (2 ^ Zpos k)
  | _ => (Zpos m * p * 2 ^ e)%Z
  end.

Definition round (ndigits : nat) (x : float) : float :=
  match Prim2SF x with
  | S754_finite s m e =>
      match scaled_digits ndigits m e with
      | Zpos n =>
          SF2Prim (SFdiv prec emax (S754_finite s n 0)
                     (S754_finite false (Z.to_pos (10 ^ Z.of_nat ndigits)) 0))
      | _ => if s then neg_zero else zero
      end
  | _ => x
  end.

(** [round(v, 4) if not pd.isna(v) else None] *)
Definition round4_or_none (v : float) : json :=
  if is_nan v then JNull else JNum (round 4 v).

(** ** [validate.py] *)

(** The body of the loop of [check_accounting_equation] for one column. *)
Definition equation_entry (balance_df : DataFrame) (tol : float) (col : period) : json :=
  let ta := safe_get_field balance_df ["TotalAssets"] (Some col) nan in
  let tl := safe_get_field balance_df ["TotalLiabilities"] (Some col) nan in
  let te := safe_get_field balance_df ["TotalStockholderEquity"] (Some col) nan in
  if 0 <? ta then
    let diff := abs (ta - (tl + te)) / ta in
    JObj [ ("ok", JBool (diff <=? tol));
           ("delta", JNum diff);
           ("assets", JNum ta);
           ("liabilities", JNum tl);
           ("equity", JNum te);
           ("calculated_total", JNum (tl + te)) ]
  else
    JObj [ ("ok", JBool false);
           ("delta", JNum infinity);
           ("error", JStr "Total Assets is zero or missing") ].

(** [check_accounting_equation(balance_df, tol)]: [results[str(col)] = ...]
    for every column, in column order. *)
Definition check_accounting_equation (balance_df : DataFrame) (tol : float) : dict json :=
  fold_left (fun results col => dict_set results col (equation_entry balance_df tol col))
            (columns balance_df) [].

(** The default tolerance, [tol = 0.01]. *)
Definition default_tol : float := 0.01.

(** [collect_missing(df_map, needed)] *)
Definition collect_missing (df_map : dict DataFrame) (needed : dict (list string)) : list string :=
  flat_map
    (fun section_fields =>
       let '(section, fields) := section_fields in
       match dict_get df_map section with
       | None => map (fun f => section ++ ":" ++ f) fields
       | Some df =>
           flat_map (fun f => if mem f (index df) then [] else [section ++ ":" ++ f]) fields
       end)
    needed.

(** ** [compute.py] *)

(** What [calculate_alpha] keeps of the two monthly price histories: the mean
    monthly return of the stock and of the benchmark over their common dates,
    or nothing when a history is empty, when fewer than 12 monthly returns
    are common, or when the time-series provider raises. *)
Definition returns_feed : Type := option (float * float).

(** [calculate_alpha(ticker, beta)]: any exception gives [None]. *)
Definition calculate_alpha (feed : returns_feed) (stock_info : dict pyval) (beta : pyval)
  : option float :=
  match feed with
  | None => None
  | Some (stock_mean, spy_mean) =>
      let beta :=
        match beta with
        | PyNone =>
            let b := get_default stock_info "beta" (PyNum 1) in
            if isna b then PyNum 1 else b
        | _ => beta
        end in
      match beta with
      | PyNum b =>
          let alpha_monthly := stock_mean - b * spy_mean in
          let alpha_annual := alpha_monthly * 12 in
          if is_nan alpha_annual then None else Some alpha_annual
      | _ => None
      end
  end.

(** The line items and market data [compute_all] reads before any formula. *)
Record Figures : Type := mkFigures {
  TotalRevenue_t : float;
  TotalRevenue_t1 : float;
  GrossProfit_t : float;
  GrossProfit_t1 : float;
  OperatingIncome_t : float;
  OperatingIncome_t1 : float;
  NetIncome_t : float;
  NetIncome_t1 : float;
  PretaxIncome_t : float;
  SellingGeneralAdministrative_t : float;
  SellingGeneralAdministrative_t1 : float;
  IncomeTaxExpense_t : float;
  InterestExpense_t : float;
  TotalAssets_t : float;
  TotalAssets_t1 : float;
  TotalLiabilities_t : float;
  TotalLiabilities_t1 : float;
  TotalStockholderEquity_t : float;
  TotalStockholderEquity_t1 : float;
  TotalCurrentAssets_t : float;
  TotalCurrentLiabilities_t : float;
  Inventory_t : float;
  NetPPE_t : float;
  NetPPE_t1 : float;
  RetainedEarnings_t : float;
  NetReceivables_t : float;
  NetReceivables_t1 : float;
  TotalCashFromOperatingActivities_t : float;
  TotalCashFromOperatingActivities_t1 : float;
  Depreciation_t : float;
  Depreciation_t1 : float;
  CashDividendsPaid_t : float;
  TotalCurrentAssets_t1 : float;
  TotalCurrentLiabilities_t1 : float;
  shares : pyval;
  price : pyval;
  dividend_rate : pyval;
  book_value : pyval
}.

(** [years[0]] and [years[1]]; [select_two_years] always returns two labels. *)
Definition y_t (data : Selected) : period := nth 0 (years data) "".
Definition y_t1 (data : Selected) : period := nth 1 (years data) "".

Definition read_figures (data : Selected) : Figures :=
  let get (df : DataFrame) (name : string) (y : period) :=
    safe_get_field df [name] (Some y) nan in
  let income := income data in
  let balance := balance data in
  let cashflow := cashflow data in
  let info := info data in
  let y_t := y_t data in
  let y_t1 := y_t1 data in
  {| TotalRevenue_t := get income "TotalRevenue" y_t;
     TotalRevenue_t1 := get income "TotalRevenue" y_t1;
     GrossProfit_t := get income "GrossProfit" y_t;
     GrossProfit_t1 := get income "GrossProfit" y_t1;
     OperatingIncome_t := get income "OperatingIncome" y_t;
     OperatingIncome_t1 := get income "OperatingIncome" y_t1;
     NetIncome_t := get income "NetIncome" y_t;
     NetIncome_t1 := get income "NetIncome" y_t1;
     PretaxIncome_t := get income "PretaxIncome" y_t;
     SellingGeneralAdministrative_t := get income "SellingGeneralAdministrative" y_t;
     SellingGeneralAdministrative_t1 := get income "SellingGeneralAdministrative" y_t1;
     IncomeTaxExpense_t := get income "IncomeTaxExpense" y_t;
     InterestExpense_t := get income "InterestExpense" y_t;
     TotalAssets_t := get balance "TotalAssets" y_t;
     TotalAssets_t1 := get balance "TotalAssets" y_t1;
     TotalLiabilities_t := get balance "TotalLiabilities" y_t;
     TotalLiabilities_t1 := get balance "TotalLiabilities" y_t1;
     TotalStockholderEquity_t := get balance "TotalStockholderEquity" y_t;
     TotalStockholderEquity_t1 := get balance "TotalStockholderEquity" y_t1;
     TotalCurrentAssets_t := get balance "TotalCurrentAssets" y_t;
     TotalCurrentLiabilities_t := get balance "TotalCurrentLiabilities" y_t;
     Inventory_t := get balance "Inventory" y_t;
     NetPPE_t := get balance "NetPPE" y_t;
     NetPPE_t1 := get balance "NetPPE" y_t1;
     RetainedEarnings_t := get balance "RetainedEarnings" y_t;
     NetReceivables_t := get balance "NetReceivables" y_t;
     NetReceivables_t1 := get balance "NetReceivables" y_t1;
     TotalCashFromOperatingActivities_t := get cashflow "TotalCashFromOperatingActivities" y_t;
     TotalCashFromOperatingActivities_t1 := get cashflow "TotalCashFromOperatingActivities" y_t1;
     Depreciation_t := get cashflow "Depreciation" y_t;
     Depreciation_t1 := get cashflow "Depreciation" y_t1;
     CashDividendsPaid_t := get cashflow "CashDividendsPaid" y_t;
     TotalCurrentAssets_t1 := get balance "TotalCurrentAssets" y_t1;
     TotalCurrentLiabilities_t1 := get balance "TotalCurrentLiabilities" y_t1;
     shares := get_default info "sharesOutstanding" (PyNum nan);
     price :=
       (let current := get_default info "currentPrice" PyNone in
        if truthy current then current
        else get_default info "regularMarketPrice" (PyNum nan));
     dividend_rate := get_default info "dividendRate" (PyNum nan);
     book_value := get_default info "bookValue" (PyNum nan) |}.

(** [1 if c else 0] *)
Definition signal (c : bool) : nat := if c then 1%nat else 0%nat.

Section Formulas.
Variable x : Figures.

Definition avg_assets : float := avg (TotalAssets_t x) (TotalAssets_t1 x).
Definition avg_equity : float :=
  avg (TotalStockholderEquity_t x) (TotalStockholderEquity_t1 x).

(** Core ratios *)
Definition current_ratio : float :=
  safe_div (TotalCurrentAssets_t x) (TotalCurrentLiabilities_t x).
Definition quick_ratio : float :=
  safe_div (TotalCurrentAssets_t x - Inventory_t x) (TotalCurrentLiabilities_t x).
Definition debt_to_equity : float :=
  safe_div (TotalLiabilities_t x) (TotalStockholderEquity_t x).
Definition roe : float := safe_div (NetIncome_t x) avg_equity.
Definition roa : float := safe_div (NetIncome_t x) avg_assets.

(** DuPont analysis *)
Definition npm : float := safe_div (NetIncome_t x) (TotalRevenue_t x).
Definition asset_turnover : float := safe_div (TotalRevenue_t x) avg_assets.
Definition equity_multiplier : float :=
  safe_div (TotalAssets_t x) (TotalStockholderEquity_t x).
Definition roe_dupont_3 : float := npm * asset_turnover * equity_multiplier.

Definition tax_burden : float :=
  if negb (is_nan (PretaxIncome_t x)) && negb (PretaxIncome_t x =? 0)
  then safe_div (NetIncome_t x) (PretaxIncome_t x) else nan.
Definition interest_burden : float :=
  if negb (is_nan (OperatingIncome_t x)) && negb (OperatingIncome_t x =? 0)
  then safe_div (PretaxIncome_t x) (OperatingIncome_t x) else nan.
Definition operating_margin : float :=
  safe_div (OperatingIncome_t x) (TotalRevenue_t x).
Definition roe_dupont_5 : float :=
  tax_burden * interest_burden * operating_margin * asset_turnover * equity_multiplier.
Definition roe_adjusted : float := roe_dupont_3.

(** Price-based ratios; [shares_ok] is the value of
    [not pd.isna(shares) and shares > 0]. *)
Section PerShare.
Variable shares_ok : bool.

Definition eps_t : float :=
  if shares_ok then safe_div_v (PyNum (NetIncome_t x)) (shares x) else nan.
Definition eps_t1 : float :=
  if shares_ok then safe_div_v (PyNum (NetIncome_t1 x)) (shares x) else nan.
Definition bps_t : pyval :=
  if shares_ok then PyNum (safe_div_v (PyNum (TotalStockholderEquity_t x)) (shares x))
  else book_value x.
Definition sps_t : float :=
  if shares_ok then safe_div_v (PyNum (TotalRevenue_t x)) (shares x) else nan.
Definition growth_eps : float :=
  if negb (is_nan eps_t1) && (0 <? eps_t1)
  then safe_div (eps_t - eps_t1) eps_t1 else nan.

Definition pe : float := safe_div_v (price x) (PyNum eps_t).
Definition pb : float := safe_div_v (price x) bps_t.
Definition ps : float := safe_div_v (price x) (PyNum sps_t).
Definition peg : float :=
  if negb (is_nan pe) && negb (is_nan growth_eps) && (0 <? growth_eps)
  then safe_div pe (100 * growth_eps) else nan.

(** Dividend metrics *)
Definition div_ps : pyval :=
  if negb (isna (dividend_rate x)) then dividend_rate x
  else if negb (is_nan (CashDividendsPaid_t x)) && negb (isna (shares x)) && shares_ok
       then PyNum (safe_div_v (PyNum (- CashDividendsPaid_t x)) (shares x))
       else PyNum nan.
Definition dividend_yield : float := safe_div_v div_ps (price x).
Definition dividend_payout_ratio : float :=
  if negb (is_nan eps_t) && (0 <? eps_t)
  then safe_div_v div_ps (PyNum eps_t) else nan.
(** [div_ps_ok] is the value of [not pd.isna(div_ps) and div_ps > 0]. *)
Definition dividend_coverage_ratio (div_ps_ok : bool) : float :=
  if div_ps_ok then safe_div_v (PyNum eps_t) div_ps else nan.
End PerShare.

(** Piotroski F-Score *)
Definition ROA_t : float := safe_div (NetIncome_t x) (TotalAssets_t x).
Definition ROA_t1 : float := safe_div (NetIncome_t1 x) (TotalAssets_t1 x).
Definition CFO_t : float := TotalCashFromOperatingActivities_t x.

(** [shares_le_shares] is the value of [shares <= shares]. *)
Definition piotroski_signals (shares_le_shares : bool) : dict nat :=
  [ ("F1", signal (0 <? ROA_t));
    ("F2", signal (0 <? CFO_t));
    ("F3", signal (ROA_t1 <? ROA_t));
    ("F4", signal (NetIncome_t x <? CFO_t));
    ("F5", signal (safe_div (TotalLiabilities_t x) (TotalAssets_t x)
                   <? safe_div (TotalLiabilities_t1 x) (TotalAssets_t1 x)));
    ("F6", signal (safe_div (TotalCurrentAssets_t1 x) (TotalCurrentLiabilities_t1 x)
                   <? safe_div (TotalCurrentAssets_t x) (TotalCurrentLiabilities_t x)));
    ("F7", signal shares_le_shares);
    ("F8", signal (safe_div (GrossProfit_t1 x) (TotalRevenue_t1 x)
                   <? safe_div (GrossProfit_t x) (TotalRevenue_t x)));
    ("F9", signal (safe_div (TotalRevenue_t1 x) (TotalAssets_t1 x)
                   <? safe_div (TotalRevenue_t x) (TotalAssets_t x))) ].

(** Beneish components ([COGS_t] and [COGS_t1] are computed by the code but
    never read, and are left out) *)
Definition DSRI : float :=
  safe_div (safe_div (NetReceivables_t x) (TotalRevenue_t x))
           (safe_div (NetReceivables_t1 x) (TotalRevenue_t1 x)).
Definition GMI : float :=
  safe_div (safe_div (GrossProfit_t1 x) (TotalRevenue_t1 x))
           (safe_div (GrossProfit_t x) (TotalRevenue_t x)).
Definition AQI : float :=
  safe_div (1 - safe_div (TotalCurrentAssets_t x + NetPPE_t x) (TotalAssets_t x))
           (1 - safe_div (TotalCurrentAssets_t1 x + NetPPE_t1 x) (TotalAssets_t1 x)).
Definition SGI : float := safe_div (TotalRevenue_t x) (TotalRevenue_t1 x).
Definition DEPI : float :=
  safe_div (safe_div (Depreciation_t1 x) (Depreciation_t1 x + NetPPE_t1 x))
           (safe_div (Depreciation_t x) (Depreciation_t x + NetPPE_t x)).
Definition SGAI : float :=
  safe_div (safe_div (SellingGeneralAdministrative_t x) (TotalRevenue_t x))
           (safe_div (SellingGeneralAdministrative_t1 x) (TotalRevenue_t1 x)).
Definition LVGI : float :=
  safe_div (safe_div (TotalLiabilities_t x) (TotalAssets_t x))
           (safe_div (TotalLiabilities_t1 x) (TotalAssets_t1 x)).
Definition TATA : float :=
  safe_div (OperatingIncome_t x - TotalCashFromOperatingActivities_t x) (TotalAssets_t x).

Definition beneish_components : dict float :=
  [ ("DSRI", DSRI); ("GMI", GMI); ("AQI", AQI); ("SGI", SGI);
    ("DEPI", DEPI); ("SGAI", SGAI); ("LVGI", LVGI); ("TATA", TATA) ].

(** [[k for k, v in beneish_components.items() if pd.isna(v)]] *)
Definition missing_components : list string :=
  map fst (filter (fun kv => is_nan (snd kv)) beneish_components).

Definition beneish_formula : float :=
  -4.84 + 0.92 * DSRI + 0.528 * GMI + 0.404 * AQI + 0.892 * SGI + 0.115 * DEPI
  - 0.172 * SGAI + 4.679 * TATA - 0.327 * LVGI.

Definition beneish_m_score : option float :=
  match missing_components with
  | [] => Some beneish_formula
  | _ => None
  end.
Definition beneish_reason : option string :=
  match missing_components with
  | [] => None
  | _ => Some ("insufficient_fields: " ++ String.concat ", " missing_components)
  end.

(** Altman Z-Score *)
Definition working_capital : float := TotalCurrentAssets_t x - TotalCurrentLiabilities_t x.
Definition retained_earnings : float := RetainedEarnings_t x.
Definition ebit : float := OperatingIncome_t x.

Definition altman_a : float := safe_div working_capital (TotalAssets_t x).
Definition altman_b : float := safe_div retained_earnings (TotalAssets_t x).
Definition altman_c : float := safe_div ebit (TotalAssets_t x).
Definition altman_d : float :=
  safe_div (TotalStockholderEquity_t x) (TotalLiabilities_t x).
Definition altman_e : float := safe_div (TotalRevenue_t x) (TotalAssets_t x).

Definition altman_components : list float :=
  [altman_a; altman_b; altman_c; altman_d; altman_e].

Definition altman_formula : float :=
  1.2 * altman_a + 1.4 * altman_b + 3.3 * altman_c + 0.6 * altman_d + 1.0 * altman_e.

Definition altman_z_score : option float :=
  if existsb is_nan altman_components then None else Some altman_formula.
Definition altman_reason : option string :=
  if existsb is_nan altman_components
  then Some "insufficient_fields: missing working capital, retained earnings, EBIT, equity, or revenue data"
  else None.
End Formulas.

(** [f"{score:.2f}"] on a non-negative int. *)
Definition format_2f (score : nat) : string := string_of_nat score ++ ".00".

(** [sum(piotroski_signals.values())] *)
Definition sum_values (signals : dict nat) : nat :=
  fold_left Nat.add (map snd signals) 0%nat.

Definition needed_fields : dict (list string) :=
  [ ("income", ["TotalRevenue"; "GrossProfit"; "OperatingIncome"; "NetIncome";
                "SellingGeneralAdministrative"; "IncomeTaxExpense"; "InterestExpense"]);
    ("balance", ["TotalAssets"; "TotalLiabilities"; "TotalStockholderEquity";
                 "TotalCurrentAssets"; "TotalCurrentLiabilities"; "Inventory"; "NetPPE";
                 "RetainedEarnings"; "NetReceivables"]);
    ("cashflow", ["TotalCashFromOperatingActivities"; "Depreciation"; "CashDividendsPaid"]) ].

Definition round4_of_option (o : option float) : json :=
  match o with
  | Some v => JNum (round 4 v)
  | None => JNull
  end.

Definition json_of_option_string (o : option string) : json :=
  match o with
  | Some s => JStr s
  | None => JNull
  end.

(** Everything the pipeline reads from outside for one ticker. *)
Record Market : Type := mkMarket {
  statements : yf_ticker;
  monthly_returns : returns_feed
}.

(** The dict returned at the end of the [try] block of [compute_all]. *)
Definition success_document (ticker : string) (data : Selected) (x : Figures)
    (shares_ok div_ps_ok shares_le_shares : bool) (alpha : option float) : json :=
  let piotroski_signals := piotroski_signals x shares_le_shares in
  let piotroski_score := sum_values piotroski_signals in
  let piotroski_fscore_display := format_2f piotroski_score ++ "/9" in
  let validation := check_accounting_equation (balance data) default_tol in
  let missing_fields :=
    collect_missing
      [("income", income data); ("balance", balance data); ("cashflow", cashflow data)]
      needed_fields in
  let notes := map (fun f => "Missing field: " ++ f) missing_fields in
  JObj
    [ ("ticker", JStr ticker);
      ("currency", json_of_pyval (currency data));
      ("years", JList (map JStr (years data)));
      ("validation", JObj validation);
      ("ratios", JObj
         [ ("current", round4_or_none (current_ratio x));
           ("quick", round4_or_none (quick_ratio x));
           ("debt_to_equity", round4_or_none (debt_to_equity x));
           ("roe", round4_or_none (roe x));
           ("roa", round4_or_none (roa x));
           ("roe_adjusted", round4_or_none (roe_adjusted x)) ]);
      ("dupont", JObj
         [ ("roe_3step", JObj
              [ ("npm", round4_or_none (npm x));
                ("asset_turnover", round4_or_none (asset_turnover x));
                ("equity_multiplier", round4_or_none (equity_multiplier x));
                ("roe", round4_or_none (roe_dupont_3 x)) ]);
           ("roe_5step", JObj
              [ ("tax_burden", round4_or_none (tax_burden x));
                ("interest_burden", round4_or_none (interest_burden x));
                ("operating_margin", round4_or_none (operating_margin x));
                ("asset_turnover", round4_or_none (asset_turnover x));
                ("equity_multiplier", round4_or_none (equity_multiplier x));
                ("roe", round4_or_none (roe_dupont_5 x)) ]) ]);
      ("piotroski", JObj
         [ ("score", JInt (Z.of_nat piotroski_score));
           ("fscore_display", JStr piotroski_fscore_display);
           ("signals", JObj (map (fun kv => (fst kv, JInt (Z.of_nat (snd kv))))
                                 piotroski_signals)) ]);
      ("beneish", JObj
         [ ("m", round4_of_option (beneish_m_score x));
           ("reason", json_of_option_string (beneish_reason x));
           ("components", JObj (map (fun kv => (fst kv, round4_or_none (snd kv)))
                                    (beneish_components x))) ]);
      ("altman", JObj
         [ ("z", round4_of_option (altman_z_score x));
           ("z_prime", JNull);
           ("reason", json_of_option_string (altman_reason x));
           ("components", JObj
              [ ("a", round4_or_none (altman_a x));
                ("b", round4_or_none (altman_b x));
                ("c", round4_or_none (altman_c x));
                ("d", round4_or_none (altman_d x));
                ("e", round4_or_none (altman_e x)) ]) ]);
      ("price_based", JObj
         [ ("pe", round4_or_none (pe x shares_ok));
           ("pb", round4_or_none (pb x shares_ok));
           ("ps", round4_or_none (ps x shares_ok));
           ("peg", round4_or_none (peg x shares_ok)) ]);
      ("dividends", JObj
         [ ("dividend_yield", round4_or_none (dividend_yield x shares_ok));
           ("dividend_payout_ratio", round4_or_none (dividend_payout_ratio x shares_ok));
           ("dividend_coverage_ratio",
            round4_or_none (dividend_coverage_ratio x shares_ok div_ps_ok)) ]);
      ("alpha", match alpha with
                | Some a => round4_or_none a
                | None => JNull
                end);
      ("notes", JList (map JStr notes)) ].

(** The dict returned by the [except Exception as e] handler. *)
Definition error_document (ticker : string) (e : string) : json :=
  JObj
    [ ("ticker", JStr ticker);
      ("error", JStr e);
      ("currency", JStr "Unknown");
      ("years", JList []);
      ("validation", JObj []);
      ("ratios", JObj []);
      ("dupont", JObj []);
      ("piotroski", JObj [ ("score", JNull); ("fscore_display", JStr "N/A");
                           ("signals", JObj []) ]);
      ("beneish", JObj [ ("m", JNull); ("reason", JStr ("computation_error: " ++ e));
                         ("components", JObj []) ]);
      ("altman", JObj [ ("z", JNull); ("z_prime", JNull);
                        ("reason", JStr ("computation_error: " ++ e));
                        ("components", JObj []) ]);
      ("price_based", JObj []);
      ("dividends", JObj []);
      ("alpha", JNull);
      ("notes", JList [JStr ("Error: " ++ e)]) ].

(** [beta = info.get('beta', 1.0)], replaced by [1.0] when [None] or NaN. *)
Definition beta_of (stock_info : dict pyval) : pyval :=
  let beta := get_default stock_info "beta" (PyNum 1) in
  if isna beta then PyNum 1 else beta.

(** The statements the [try] block runs after the period selection, in the
    order in which they can raise. *)
Definition compute_selected (ticker : string) (m : Market) (data : Selected) : result json :=
  let x := read_figures data in
  shares_ok <- notna_and_positive (shares x) ;;
  div_ps_ok <- notna_and_positive (div_ps x shares_ok) ;;
  shares_le_shares <- le_self (shares x) ;;
  let alpha := calculate_alpha (monthly_returns m) (info data) (beta_of (info data)) in
  Ok (success_document ticker data x shares_ok div_ps_ok shares_le_shares alpha).

(** The [try] block of [compute_all]. *)
Definition try_compute_all (ticker : string) (m : Market) : result json :=
  raw_data <- get_financials ticker (statements m) ;;
  data <- select_two_years raw_data ;;
  compute_selected ticker m data.

(** [compute_all(ticker)] *)
Definition compute_all (ticker : string) (m : Market) : json :=
  match try_compute_all ticker m with
  | Ok document => document
  | Raise e => error_document ticker e
  end.

(** The keys of the [piotroski_signals] dict, in order. *)
Definition signal_names : list string :=
  ["F1"; "F2"; "F3"; "F4"; "F5"; "F6"; "F7"; "F8"; "F9"].



(** [k] occurs in [s]. *)
Definition names (s k : string) : Prop :=
  exists before after, s = before ++ k ++ after.

(** [doc] is what the [try] block of [compute_all(ticker)] returns when no
    statement in it raises; [data] is the period selection it worked on. *)
Definition success_path (ticker : string) (m : Market) (data : Selected) (doc : json) : Prop :=
  exists raw_data,
    get_financials ticker (statements m) = Ok raw_data /\
    select_two_years raw_data = Ok data /\
    compute_selected ticker m data = Ok doc.

(** ** Sample inputs *)

Module Sample.

Definition periods : list period := ["2023-12-31"; "2022-12-31"; "2021-12-31"].

Definition income_stmt : DataFrame :=
  mkDataFrame periods
    [ ("Total Revenue", [1200; 1000; 900]);
      ("Gross Profit", [480; 380; 330]);
      ("Operating Income", [240; 190; 150]);
      ("Net Income", [150; 120; 100]);
      ("Pretax Income", [200; 160; 130]);
      ("Selling General And Administration", [120; 110; 100]);
      ("Tax Provision", [50; 40; 30]);
      ("Interest Expense", [40; 30; 20]) ].

(** Total assets are not reported for the oldest period. *)
Definition balance_sheet : DataFrame :=
  mkDataFrame periods
    [ ("Total Assets", [1000; 900; nan]);
      ("Total Liabilities Net Minority Interest", [400; 380; 350]);
      ("Stockholders Equity", [600; 520; 450]);
      ("Current Assets", [500; 420; 400]);
      ("Current Liabilities", [250; 240; 230]);
      ("Inventory", [100; 90; 80]);
      ("Net PPE", [300; 280; 260]);
      ("Retained Earnings", [350; 300; 250]);
      ("Accounts Receivable", [150; 130; 120]) ].

Definition cash_flow : DataFrame :=
  mkDataFrame periods
    [ ("Operating Cash Flow", [260; 200; 180]);
      ("Depreciation And Amortization", [60; 55; 50]);
      ("Cash Dividends Paid", [-50; -40; -30]) ].

Definition market_info : dict pyval :=
  [ ("sharesOutstanding", PyNum 100);
    ("currentPrice", PyNum 30);
    ("beta", PyNum 1.2);
    ("dividendRate", PyNum 0.5);
    ("bookValue", PyNum 6);
    ("currency", PyStr "USD") ].

(** A company with every line item the formulas read. *)
Definition acme : Market :=
  mkMarket (YfData (Some income_stmt) (Some balance_sheet) (Some cash_flow) market_info)
           (Some (0.02, 0.01)).

(** The same company without receivables and SG&A rows, and with an info
    snapshot that has no [sharesOutstanding] entry. *)
Definition sparse_income : DataFrame :=
  mkDataFrame periods
    [ ("Total Revenue", [1200; 1000; 900]);
      ("Gross Profit", [480; 380; 330]);
      ("Operating Income", [240; 190; 150]);
      ("Net Income", [150; 120; 100]) ].

Definition sparse_balance : DataFrame :=
  mkDataFrame periods
    [ ("Total Assets", [1000; 900; 800]);
      ("Total Liabilities Net Minority Interest", [400; 380; 350]);
      ("Stockholders Equity", [600; 520; 450]);
      ("Current Assets", [500; 420; 400]);
      ("Net PPE", [300; 280; 260]) ].

Definition sparse : Market :=
  mkMarket (YfData (Some sparse_income) (Some sparse_balance) (Some cash_flow)
                   [("currentPrice", PyNum 30); ("currency", PyStr "USD")])
           None.

(** Statements that share a single fiscal period. *)
Definition one_period_income : DataFrame :=
  mkDataFrame ["2023-12-31"] [ ("Total Revenue", [1200]); ("Net Income", [150]) ].

Definition young : Market :=
  mkMarket (YfData (Some one_period_income) (Some balance_sheet) (Some cash_flow) market_info)
           None.

(** A row that holds a value for one period only. *)
Definition patchy : DataFrame :=
  mkDataFrame ["2023-12-31"; "2022-12-31"]
    [ ("TotalAssets", [nan; 900]); ("Inventory", [nan; nan]) ].

(** A balance sheet whose totals overflowed to infinity. *)
Definition unbounded : DataFrame :=
  mkDataFrame ["2023-12-31"]
    [ ("TotalAssets", [infinity]); ("TotalLiabilities", [infinity]);
      ("TotalStockholderEquity", [0]) ].

(** The first company without a retained-earnings row. *)
Definition no_retained_balance : DataFrame :=
  mkDataFrame periods
    [ ("Total Assets", [1000; 900; nan]);
      ("Total Liabilities Net Minority Interest", [400; 380; 350]);
      ("Stockholders Equity", [600; 520; 450]);
      ("Current Assets", [500; 420; 400]);
      ("Current Liabilities", [250; 240; 230]);
      ("Inventory", [100; 90; 80]);
      ("Net PPE", [300; 280; 260]);
      ("Accounts Receivable", [150; 130; 120]) ].

Definition no_retained : Market :=
  mkMarket (YfData (Some income_stmt) (Some no_retained_balance) (Some cash_flow) market_info)
           (Some (0.02, 0.01)).

(** Statements at the two ends of the binary64 range: amounts of the order
    of 1e300 against total assets of the order of 1e-10. *)
Definition extreme_income : DataFrame :=
  mkDataFrame periods
    [ ("Total Revenue", [1; 1; 1]);
      ("Operating Income", [1e298; 1e298; 1e298]);
      ("Net Income", [1e300; 1e300; 1e300]) ].

Definition extreme_balance : DataFrame :=
  mkDataFrame periods
    [ ("Total Assets", [1e-10; 1e-10; 1e-10]);
      ("Total Liabilities Net Minority Interest", [1e-10; 1e-10; 1e-10]);
      ("Stockholders Equity", [1e-10; 1e-10; 1e-10]);
      ("Current Assets", [1.6e298; 1.6e298; 1.6e298]);
      ("Current Liabilities", [5e-11; 5e-11; 5e-11]);
      ("Retained Earnings", [-1.6e298; -1.6e298; -1.6e298]) ].

Definition extreme : Market :=
  mkMarket (YfData (Some extreme_income) (Some extreme_balance) (Some cash_flow) market_info)
           None.

End Sample.

(** * Facts about binary64 arithmetic *)

Module FloatFacts.

Lemma is_nan_Prim2SF (x : float) : is_nan x = true <-> Prim2SF x = S754_nan.
Proof.
  unfold Prim2SF. split.
  - intros ->. reflexivity.
  - destruct (is_nan x); [reflexivity|].
    destruct (is_zero x); [discriminate|].
    destruct (is_infinity x); [discriminate|].
    destruct (Z.frexp x) as [r ex].
    destruct (shr_fexp _ _ _ _ _) as [sh e'].
    destruct (shr_m sh); discriminate.
Qed.

Lemma not_nan_Prim2SF (x : float) : is_nan x = false <-> Prim2SF x <> S754_nan.
Proof.
  rewrite <- is_nan_Prim2SF. destruct (is_nan x); split; congruence.
Qed.

Lemma SFcompare_nan_r (z : spec_float) : SFcompare z S754_nan = None.
Proof. destruct z; reflexivity. Qed.

(** Every comparison with a NaN operand is false. *)
Lemma ltb_nan_l (x y : float) : is_nan x = true -> (x <? y) = false.
Proof.
  intros H. apply is_nan_Prim2SF in H. rewrite ltb_spec, H. reflexivity.
Qed.

Lemma ltb_nan_r (x y : float) : is_nan y = true -> (x <? y) = false.
Proof.
  intros H. apply is_nan_Prim2SF in H. rewrite ltb_spec, H.
  unfold SFltb. rewrite SFcompare_nan_r. reflexivity.
Qed.

Lemma leb_nan_l (x y : float) : is_nan x = true -> (x <=? y) = false.
Proof.
  intros H. apply is_nan_Prim2SF in H. rewrite leb_spec, H. reflexivity.
Qed.

Lemma leb_nan_r (x y : float) : is_nan y = true -> (x <=? y) = false.
Proof.
  intros H. apply is_nan_Prim2SF in H. rewrite leb_spec, H.
  unfold SFleb. rewrite SFcompare_nan_r. reflexivity.
Qed.

(** [x <= x] holds exactly for the floats that are not NaN. *)
Lemma leb_self (x : float) : (x <=? x) = negb (is_nan x).
Proof.
  unfold is_nan. rewrite negb_involutive, leb_spec, eqb_spec.
  unfold SFleb, SFeqb.
  assert (H : SFcompare (Prim2SF x) (Prim2SF x) = None
              \/ SFcompare (Prim2SF x) (Prim2SF x) = Some Eq).
  { destruct (Prim2SF x) as [s| s| |s m e]; simpl; auto.
    - destruct s; auto.
    - rewrite Z.compare_refl, Pos.compare_cont_refl. destruct s; auto. }
  destruct H as [-> | ->]; reflexivity.
Qed.

Lemma SFcompare_antisym (z w : spec_float) (c : comparison) :
  SFcompare z w = Some c -> SFcompare w z = Some (CompOpp c).
Proof.
  destruct z as [s1| s1| |s1 m1 e1], w as [s2| s2| |s2 m2 e2]; simpl;
    try discriminate; intros H; inversion H; subst; clear H;
    try (destruct s1; reflexivity); try (destruct s2; reflexivity);
    try (destruct s1, s2; reflexivity).
  destruct s1, s2; try reflexivity;
    rewrite (Z.compare_antisym e1 e2);
    destruct (e1 ?= e2)%Z; simpl; try reflexivity;
    rewrite (Pos.compare_cont_antisym m1 m2 Eq); simpl;
    try rewrite CompOpp_involutive; reflexivity.
Qed.

Lemma leb_not_ltb (x y : float) : (x <=? y) = true -> (y <? x) = false.
Proof.
  rewrite leb_spec, ltb_spec. unfold SFleb, SFltb.
  destruct (SFcompare (Prim2SF x) (Prim2SF y)) as [c|] eqn:E; [|discriminate].
  rewrite (SFcompare_antisym _ _ _ E). destruct c; simpl; congruence.
Qed.

Lemma ltb_false_leb (x y : float) :
  is_nan x = false -> is_nan y = false -> (x <? y) = false -> (y <=? x) = true.
Proof.
  rewrite !not_nan_Prim2SF, leb_spec, ltb_spec. unfold SFleb, SFltb.
  intros Hx Hy.
  destruct (SFcompare (Prim2SF x) (Prim2SF y)) as [c|] eqn:E.
  - rewrite (SFcompare_antisym _ _ _ E). destruct c; simpl; congruence.
  - exfalso. destruct (Prim2SF x) as [s1| s1| |s1 m1 e1], (Prim2SF y) as [s2| s2| |s2 m2 e2];
      simpl in E; congruence.
Qed.

Lemma Prim2SF_zero : Prim2SF 0 = S754_zero false.
Proof. reflexivity. Qed.

Lemma Prim2SF_infinity : Prim2SF infinity = S754_infinity false.
Proof. reflexivity. Qed.

(** A finite float above zero has a positive finite representation. *)
Lemma positive_finite (x : float) :
  (0 <? x) = true -> is_infinity x = false ->
  exists m e, Prim2SF x = S754_finite false m e.
Proof.
  unfold is_infinity. rewrite ltb_spec, eqb_spec, abs_spec, Prim2SF_zero, Prim2SF_infinity.
  destruct (Prim2SF x) as [s| s| |s m e]; simpl; intros H1 H2; try discriminate.
  destruct s; [discriminate|]. eauto.
Qed.

Lemma SFeqb_positive_finite (m : positive) (e : Z) (w : spec_float) :
  SFeqb (S754_finite false m e) w = true -> w = S754_finite false m e.
Proof.
  unfold SFeqb. destruct w as [s2| s2| |s2 m2 e2]; simpl; try discriminate.
  - destruct s2; discriminate.
  - destruct s2; [discriminate|].
    destruct (e ?= e2)%Z eqn:E; try discriminate.
    apply Z.compare_eq in E. subst e2.
    destruct (Pos.compare_cont Eq m m2) eqn:P; try discriminate.
    apply Pos.compare_eq in P. subst m2. reflexivity.
Qed.

Lemma SFsub_diag (m : positive) (e : Z) :
  SFsub prec emax (S754_finite false m e) (S754_finite false m e) = S754_zero false.
Proof.
  unfold SFsub, cond_Zopp. rewrite Z.sub_diag. reflexivity.
Qed.

(** Subtracting from a positive finite float an equal float leaves [+0],
    and the relative gap [|x - y| / x] is [+0] as well. *)
Lemma relative_gap_zero (x y : float) :
  (0 <? x) = true -> is_infinity x = false -> (x =? y) = true ->
  abs (x - y) / x = 0.
Proof.
  intros Hpos Hfin Heq.
  destruct (positive_finite x Hpos Hfin) as (m & e & Hx).
  rewrite eqb_spec, Hx in Heq. apply SFeqb_positive_finite in Heq.
  apply Prim2SF_inj.
  rewrite div_spec, abs_spec, sub_spec, Hx, Heq.
  unfold SF64sub. rewrite SFsub_diag. reflexivity.
Qed.

End FloatFacts.
(** * Facts about the builtin [round] *)

Module RoundFacts.
Import FloatFacts.

(* non-negativity through the shifts *)
Lemma shr_1_nonneg mrs : (0 <= shr_m mrs)%Z -> (0 <= shr_m (shr_1 mrs))%Z.
Proof.
  destruct mrs as [m r s]. simpl. intros H.
  destruct m as [|p|p]; simpl; try lia; destruct p; simpl; lia.
Qed.

Lemma iter_shr_1_nonneg p : forall mrs,
  (0 <= shr_m mrs)%Z -> (0 <= shr_m (iter_pos shr_1 p mrs))%Z.
Proof.
  induction p as [p IH|p IH|]; intros mrs H; simpl.
  - apply IH, IH, shr_1_nonneg, H.
  - apply IH, IH, H.
  - apply shr_1_nonneg, H.
Qed.

Lemma shr_fexp_nonneg m e l :
  (0 <= m)%Z -> (0 <= shr_m (fst (shr_fexp prec emax m e l)))%Z.
Proof.
  intros H. unfold shr_fexp, shr.
  assert (H0 : (0 <= shr_m (shr_record_of_loc m l))%Z).
  { destruct l as [|[]]; exact H. }
  destruct (fexp prec emax (Zdigits2 m + e) - e)%Z; simpl; auto.
  apply iter_shr_1_nonneg, H0.
Qed.

Lemma round_nearest_even_nonneg m l : (0 <= m)%Z -> (0 <= round_nearest_even m l)%Z.
Proof.
  intros H. destruct l as [|[]]; simpl; try lia. destruct (Z.even m); lia.
Qed.

Lemma binary_round_aux_not_nan s m e l :
  (0 <= m)%Z -> binary_round_aux prec emax s m e l <> S754_nan.
Proof.
  intros H. unfold binary_round_aux.
  pose proof (shr_fexp_nonneg m e l H) as H1.
  destruct (shr_fexp prec emax m e l) as [mrs' e']. simpl in H1.
  pose proof (shr_fexp_nonneg _ e' loc_Exact
                (round_nearest_even_nonneg _ (loc_of_shr_record mrs') H1)) as H2.
  destruct (shr_fexp prec emax (round_nearest_even _ _) e' loc_Exact) as [mrs'' e''].
  simpl in H2.
  destruct (shr_m mrs''); try discriminate; [|lia].
  destruct (e'' <=? emax - prec)%Z; discriminate.
Qed.

Lemma binary_round_not_nan s m e : binary_round prec emax s m e <> S754_nan.
Proof.
  unfold binary_round. destruct (shl_align _ _ _) as [mz ez].
  apply binary_round_aux_not_nan. lia.
Qed.

Lemma binary_normalize_not_nan m e sz : binary_normalize prec emax m e sz <> S754_nan.
Proof.
  destruct m; simpl; try discriminate; apply binary_round_not_nan.
Qed.

Lemma SFdiv_finite_not_nan s1 m1 e1 s2 m2 e2 :
  SFdiv prec emax (S754_finite s1 m1 e1) (S754_finite s2 m2 e2) <> S754_nan.
Proof.
  unfold SFdiv, SFdiv_core_binary.
  set (e' := Z.min _ _). set (sh := (e1 - e2 - e')%Z).
  set (m' := match sh with Zpos _ => Z.shiftl (Zpos m1) sh | Z0 => Zpos m1 | Zneg _ => 0%Z end).
  assert (Hm : (0 <= m')%Z).
  { unfold m'. destruct sh; try lia. apply Z.shiftl_nonneg. lia. }
  pose proof (Z.div_pos m' (Zpos m2) Hm ltac:(lia)) as Hq.
  unfold Z.div in Hq.
  destruct (Z.div_eucl m' (Zpos m2)) as [q r]. simpl in Hq.
  apply binary_round_aux_not_nan, Hq.
Qed.




End RoundFacts.

(** ** [round(x, 4)] does not overflow *)

Module RoundBounds.
Import FloatFacts RoundFacts.
















End RoundBounds.

(** * Specification theorems *)

(** ** [safe_div] *)

(** C1 (amended): [safe_div] returns the quotient when neither operand is NaN,
    the denominator is at least 1e-12 in magnitude and the quotient is not
    infinite; it returns NaN when an operand is NaN or [None], when the
    denominator is below 1e-12 in magnitude, or when the quotient is infinite.
    An infinite operand alone does not force NaN. *)
Theorem safe_div_cases (a b : float) :
  (is_nan a = false -> is_nan b = false -> (eps_div <=? abs b) = true ->
   is_infinity (a / b) = false -> safe_div a b = a / b) /\
  (is_nan a = true \/ is_nan b = true -> safe_div a b = nan) /\
  ((abs b <? eps_div) = true -> safe_div a b = nan) /\
  (is_infinity (a / b) = true -> safe_div a b = nan) /\
  (safe_div_v PyNone (PyNum b) = nan /\ safe_div_v (PyNum a) PyNone = nan).
Proof.
  unfold safe_div. repeat split.
  - intros Ha Hb Hle Hinf.
    rewrite Ha, Hb, (FloatFacts.leb_not_ltb _ _ Hle), Hinf. reflexivity.
  - intros [H | H]; rewrite H; [|rewrite orb_true_r]; reflexivity.
  - intros H. rewrite H. destruct (is_nan a || is_nan b); reflexivity.
  - intros H. rewrite H. destruct (is_nan a || is_nan b); [reflexivity|].
    destruct (abs b <? eps_div); reflexivity.
Qed.

Lemma safe_div_cases_witness :
  safe_div 10 2 = 5 /\ safe_div nan 2 = nan /\ safe_div 10 0 = nan /\
  safe_div 1e308 1e-10 = nan.
Proof.
  pose proof (safe_div_cases 10 2) as (H1 & _).
  destruct (safe_div_cases nan 2) as (_ & H2 & _).
  destruct (safe_div_cases 10 0) as (_ & _ & H3 & _).
  destruct (safe_div_cases 1e308 1e-10) as (_ & _ & _ & H4 & _).
  split; [|split; [|split]].
  - exact (H1 eq_refl eq_refl eq_refl eq_refl).
  - exact (H2 (or_introl eq_refl)).
  - exact (H3 eq_refl).
  - exact (H4 eq_refl).
Defined.

(** C1 as stated fails: a non-finite operand does not always give NaN; an
    infinite denominator under a finite numerator gives zero. *)
Lemma safe_div_infinite_denominator :
  is_finite infinity = false /\ safe_div 1 infinity = 0 /\
  is_nan (safe_div 1 infinity) = false.
Proof. repeat split. Qed.

(** ** Period selection and the degraded-error document *)

Lemma mem_In (x : string) (l : list string) : mem x l = true <-> In x l.
Proof.
  unfold mem. rewrite existsb_exists. split.
  - intros (y & Hy & E). apply String.eqb_eq in E. subst. exact Hy.
  - intros H. exists x. split; [exact H | apply String.eqb_refl].
Qed.

(** [common_years] lists, without repetition, the labels that are columns of
    all three statements. *)
Lemma common_years_spec (raw : RawData) (y : period) :
  In y (common_years raw) <->
  In y (columns (raw_income raw)) /\ In y (columns (raw_balance raw)) /\
  In y (columns (raw_cashflow raw)).
Proof.
  unfold common_years, intersection, py_set.
  rewrite !filter_In, !mem_In, !nodup_In. tauto.
Qed.

Lemma common_years_NoDup (raw : RawData) : NoDup (common_years raw).
Proof.
  unfold common_years, intersection, py_set.
  apply NoDup_filter, NoDup_filter, NoDup_nodup.
Qed.

(** C2: when fewer than two fiscal periods are common to the three fetched
    statements, [compute_all] returns the degraded-error document: the ticker,
    an error string reporting the insufficient common years, an empty ratios
    section and a single note that embeds the error string. *)
Theorem compute_all_insufficient_history (ticker : string) (m : Market) (raw : RawData) :
  get_financials ticker (statements m) = Ok raw ->
  (List.length (common_years raw) < 2)%nat ->
  let e := "Insufficient common years: "
           ++ string_of_nat (List.length (common_years raw)) ++ " found" in
  let doc := compute_all ticker m in
  doc = error_document ticker e /\
  at_path ["ticker"] doc = Some (JStr ticker) /\
  at_path ["error"] doc = Some (JStr e) /\
  at_path ["ratios"] doc = Some (JObj []) /\
  at_path ["notes"] doc = Some (JList [JStr ("Error: " ++ e)]) /\
  (e = "Insufficient common years: 0 found" \/ e = "Insufficient common years: 1 found").
Proof.
  intros Hfetch Hlen e doc.
  assert (Hdoc : doc = error_document ticker e).
  { unfold doc, compute_all, try_compute_all. rewrite Hfetch. simpl.
    unfold select_two_years.
    apply Nat.ltb_lt in Hlen. rewrite Hlen. reflexivity. }
  rewrite Hdoc. repeat (split; [reflexivity|]).
  unfold e.
  destruct (List.length (common_years raw)) as [|[|n]]; [left | right | lia]; reflexivity.
Qed.

Lemma compute_all_insufficient_history_witness :
  at_path ["error"] (compute_all "YNG" Sample.young)
    = Some (JStr "Insufficient common years: 1 found") /\
  at_path ["ratios"] (compute_all "YNG" Sample.young) = Some (JObj []) /\
  at_path ["notes"] (compute_all "YNG" Sample.young)
    = Some (JList [JStr "Error: Insufficient common years: 1 found"]).
Proof.
  pose proof (compute_all_insufficient_history "YNG" Sample.young
                (mkRawData Sample.one_period_income Sample.balance_sheet
                           Sample.cash_flow Sample.market_info)
                eq_refl ltac:(vm_compute; lia)) as (_ & _ & He & Hr & Hn & _).
  exact (conj He (conj Hr Hn)).
Defined.

(** ** Field lookup *)

Lemma first_notna_Some (cells : list float) (v : float) :
  first_notna cells = Some v ->
  exists before after,
    cells = (before ++ v :: after)%list /\ forallb is_nan before = true /\ is_nan v = false.
Proof.
  induction cells as [|c cells IH]; simpl; [discriminate|].
  destruct (is_nan c) eqn:E.
  - intros H. destruct (IH H) as (before & after & -> & Hb & Hv).
    exists (c :: before), after. simpl. rewrite E. auto.
  - intros [= ->]. exists [], cells. auto.
Qed.

Lemma first_notna_None (cells : list float) :
  first_notna cells = None <-> forallb is_nan cells = true.
Proof.
  induction cells as [|c cells IH]; simpl; [tauto|].
  destruct (is_nan c); simpl; [exact IH | split; discriminate].
Qed.

Lemma series_columns (df : DataFrame) (cells : list float) :
  List.length cells = List.length (columns df) ->
  map fst (series df cells) = columns df /\ map snd (series df cells) = cells.
Proof.
  unfold series. generalize (columns df). intros cols. revert cells.
  induction cols as [|c cols IH]; intros [|v cells] H; simpl in *; try discriminate; auto.
  injection H as H. destruct (IH cells H) as [-> ->]. auto.
Qed.

Lemma series_get_mem (s : list (period * float)) (y : period) :
  mem y (map fst s) = true -> exists v, series_get s y = Some v.
Proof.
  induction s as [|[y' v] s IH]; simpl; [discriminate|].
  rewrite (String.eqb_sym y y'). destruct (y' =? y)%string; simpl; eauto.
Qed.

Lemma series_get_Some_mem (s : list (period * float)) (y : period) (v : float) :
  series_get s y = Some v -> mem y (map fst s) = true.
Proof.
  induction s as [|[k u] s IH]; simpl; [discriminate|].
  rewrite (String.eqb_sym y k). destruct (k =? y)%string; simpl; auto.
Qed.

Lemma series_get_all_nan (df : DataFrame) (cells : list float) (y : period) (v : float) :
  series_get (series df cells) y = Some v -> forallb is_nan cells = true -> is_nan v = true.
Proof.
  unfold series. generalize (columns df). intros cols. revert cells.
  induction cols as [|k cols IH]; intros [|u cells]; simpl; try discriminate.
  destruct (k =? y)%string.
  - intros [= ->] H. apply andb_true_iff in H. tauto.
  - intros Hv H. apply andb_true_iff in H. apply (IH cells); tauto.
Qed.

(** C9: a lookup for a period that is not a column of the table falls back on
    the first non-missing cell of the row, whatever its period; the NaN
    default comes back only when the row is absent, when the requested period
    is a column and its cell is missing, or when every cell of the row is
    missing. *)
Theorem safe_get_field_period_fallback (df : DataFrame) (name : string) (y : period) :
  (forall cells, loc (rows df) name = Some cells ->
                 List.length cells = List.length (columns df)) ->
  (forall cells, loc (rows df) name = Some cells -> mem y (columns df) = false ->
     safe_get_field df [name] (Some y) nan
     = match first_notna cells with
       | Some v => v
       | None => nan
       end) /\
  (is_nan (safe_get_field df [name] (Some y) nan) = true <->
     loc (rows df) name = None \/
     (exists cells v, loc (rows df) name = Some cells /\
                      series_get (series df cells) y = Some v /\ is_nan v = true) \/
     (exists cells, loc (rows df) name = Some cells /\ forallb is_nan cells = true)).
Proof.
  intros Hwide. split.
  - intros cells Hloc Hmem. simpl. rewrite Hloc.
    destruct (series_columns df cells (Hwide _ Hloc)) as [-> ->].
    rewrite Hmem. reflexivity.
  - simpl. destruct (loc (rows df) name) as [cells|] eqn:Hloc.
    + destruct (series_columns df cells (Hwide _ eq_refl)) as [Hf Hs].
      rewrite Hf, Hs.
      destruct (mem y (columns df)) eqn:Hmem.
      * rewrite <- Hf in Hmem. destruct (series_get_mem _ _ Hmem) as [v Hv].
        rewrite Hv. destruct (is_nan v) eqn:Hnan.
        -- split; [|reflexivity]. intros _. right. left. eauto.
        -- rewrite Hnan. split; [discriminate|].
           intros [H | [(c & w & [= <-] & Hw & Hn) | (c & [= <-] & Hall)]].
           ++ discriminate.
           ++ congruence.
           ++ pose proof (series_get_all_nan _ _ _ _ Hv Hall). congruence.
      * destruct (first_notna cells) as [v|] eqn:Hfirst.
        -- destruct (first_notna_Some _ _ Hfirst) as (_ & _ & _ & _ & Hv).
           rewrite Hv. split; [discriminate|].
           intros [H | [(c & w & [= <-] & Hw & Hn) | (c & [= <-] & Hall)]].
           ++ discriminate.
           ++ pose proof (series_get_Some_mem _ _ _ Hw). congruence.
           ++ apply first_notna_None in Hall. congruence.
        -- split; [|reflexivity]. intros _. right. right.
           exists cells. split; [reflexivity|]. apply first_notna_None, Hfirst.
    + split; [|reflexivity]. auto.
Qed.

Lemma safe_get_field_period_fallback_witness :
  safe_get_field Sample.patchy ["TotalAssets"] (Some "2021-12-31") nan = 900 /\
  is_nan (safe_get_field Sample.patchy ["TotalAssets"] (Some "2023-12-31") nan) = true.
Proof.
  assert (Hwide : forall cells, loc (rows Sample.patchy) "TotalAssets" = Some cells ->
                                List.length cells = List.length (columns Sample.patchy)).
  { intros cells [= <-]. reflexivity. }
  destruct (safe_get_field_period_fallback Sample.patchy "TotalAssets" "2021-12-31" Hwide)
    as [H1 _].
  destruct (safe_get_field_period_fallback Sample.patchy "TotalAssets" "2023-12-31" Hwide)
    as [_ H2].
  split.
  - exact (H1 _ eq_refl eq_refl).
  - apply H2. right. left. exists [nan; 900], nan. auto.
Defined.

(** ** The accounting-equation validator *)

Lemma dict_get_set_same {V : Type} (d : dict V) (k : string) (v : V) :
  dict_get (dict_set d k v) k = Some v.
Proof.
  induction d as [|[k' v'] d IH]; simpl.
  - rewrite String.eqb_refl. reflexivity.
  - destruct (k' =? k)%string eqn:E; simpl.
    + rewrite String.eqb_refl. reflexivity.
    + rewrite E. exact IH.
Qed.

Lemma dict_get_set_other {V : Type} (d : dict V) (k k' : string) (v : V) :
  k <> k' -> dict_get (dict_set d k v) k' = dict_get d k'.
Proof.
  intros Hne. induction d as [|[k0 v0] d IH]; simpl.
  - apply String.eqb_neq in Hne. rewrite Hne. reflexivity.
  - destruct (k0 =? k)%string eqn:E; simpl.
    + apply String.eqb_eq in E. subst k0.
      apply String.eqb_neq in Hne. rewrite Hne. reflexivity.
    + destruct (k0 =? k')%string; [reflexivity | exact IH].
Qed.

(** Each column of the balance sheet gets its own entry, whatever the other
    columns hold. *)
Lemma check_accounting_equation_get (df : DataFrame) (tol : float) (col : period) :
  In col (columns df) ->
  dict_get (check_accounting_equation df tol) col = Some (equation_entry df tol col).
Proof.
  unfold check_accounting_equation.
  assert (H : forall cols results,
             (In col cols \/ dict_get results col = Some (equation_entry df tol col)) ->
             dict_get (fold_left (fun results c => dict_set results c (equation_entry df tol c))
                                 cols results) col
             = Some (equation_entry df tol col)).
  { induction cols as [|c cols IH]; intros results Hin; simpl.
    - destruct Hin as [[] | H]. exact H.
    - apply IH. destruct (string_dec c col) as [-> | Hne].
      + right. apply dict_get_set_same.
      + destruct Hin as [[H | H] | H]; [congruence | auto |].
        right. rewrite dict_get_set_other by exact Hne. exact H. }
  intros Hin. apply H. auto.
Qed.

(** C5 (amended): the entry of a period reports [ok = false] and an infinite delta when
    total assets are unknown or not positive; otherwise the delta is
    [|A - (L + E)| / A] and [ok] tells whether it is within the tolerance,
    0.01 by default; when the (finite, positive) assets equal liabilities
    plus equity, the delta is 0 and the entry is ok. *)
Theorem check_accounting_equation_entry (df : DataFrame) (tol : float) (col : period) :
  In col (columns df) ->
  let ta := safe_get_field df ["TotalAssets"] (Some col) nan in
  let tl := safe_get_field df ["TotalLiabilities"] (Some col) nan in
  let te := safe_get_field df ["TotalStockholderEquity"] (Some col) nan in
  let entry := fun tol => dict_get (check_accounting_equation df tol) col in
  (is_nan ta = true \/ (ta <=? 0) = true ->
     entry tol = Some (JObj [ ("ok", JBool false); ("delta", JNum infinity);
                              ("error", JStr "Total Assets is zero or missing") ])) /\
  (is_nan ta = false -> (ta <=? 0) = false ->
     exists e, entry tol = Some e /\
       field "delta" e = Some (JNum (abs (ta - (tl + te)) / ta)) /\
       field "ok" e = Some (JBool (abs (ta - (tl + te)) / ta <=? tol))) /\
  ((0 <? ta) = true -> is_infinity ta = false -> (ta =? tl + te) = true ->
     exists e, entry default_tol = Some e /\
       field "delta" e = Some (JNum 0) /\ field "ok" e = Some (JBool true)).
Proof.
  intros Hin ta tl te entry. unfold entry.
  rewrite !check_accounting_equation_get by exact Hin.
  unfold equation_entry. fold ta tl te. repeat split.
  - intros H. assert (Hlt : (0 <? ta) = false).
    { destruct H as [H | H];
        [apply FloatFacts.ltb_nan_r | apply FloatFacts.leb_not_ltb]; exact H. }
    rewrite Hlt. reflexivity.
  - intros Hnan Hle. assert (Hlt : (0 <? ta) = true).
    { destruct (0 <? ta) eqn:E; [reflexivity|].
      rewrite (FloatFacts.ltb_false_leb 0 ta eq_refl Hnan E) in Hle. discriminate. }
    rewrite Hlt. eexists. split; [reflexivity|]. split; reflexivity.
  - intros Hpos Hfin Heq. rewrite Hpos.
    rewrite (FloatFacts.relative_gap_zero ta (tl + te) Hpos Hfin Heq).
    eexists. split; [reflexivity|]. split; reflexivity.
Qed.

Lemma check_accounting_equation_entry_witness :
  (exists e, dict_get (check_accounting_equation
                         (normalize_field_names Sample.balance_sheet) default_tol)
                      "2023-12-31" = Some e /\
             field "delta" e = Some (JNum 0) /\ field "ok" e = Some (JBool true)) /\
  dict_get (check_accounting_equation
              (normalize_field_names Sample.balance_sheet) default_tol) "2021-12-31"
  = Some (JObj [ ("ok", JBool false); ("delta", JNum infinity);
                 ("error", JStr "Total Assets is zero or missing") ]).
Proof.
  split.
  - destruct (check_accounting_equation_entry
                (normalize_field_names Sample.balance_sheet) default_tol "2023-12-31")
      as (_ & _ & H).
    + simpl. auto.
    + exact (H eq_refl eq_refl eq_refl).
  - destruct (check_accounting_equation_entry
                (normalize_field_names Sample.balance_sheet) default_tol "2021-12-31")
      as (H & _).
    + simpl. auto.
    + exact (H (or_introl eq_refl)).
Defined.

(** C5 as stated fails when the totals are infinite: assets are positive and
    equal liabilities plus equity, yet [inf - inf] is NaN, so the delta is NaN
    and the entry is not ok. *)
Lemma infinite_assets_not_ok :
  let ta := safe_get_field Sample.unbounded ["TotalAssets"] (Some "2023-12-31") nan in
  let tl := safe_get_field Sample.unbounded ["TotalLiabilities"] (Some "2023-12-31") nan in
  let te := safe_get_field Sample.unbounded ["TotalStockholderEquity"] (Some "2023-12-31") nan in
  In "2023-12-31" (columns Sample.unbounded) /\
  is_nan ta = false /\ (ta <=? 0) = false /\ (0 <? ta) = true /\ (ta =? tl + te) = true /\
  dict_get (check_accounting_equation Sample.unbounded default_tol) "2023-12-31"
  = Some (JObj [ ("ok", JBool false); ("delta", JNum nan);
                 ("assets", JNum infinity); ("liabilities", JNum infinity);
                 ("equity", JNum 0); ("calculated_total", JNum infinity) ]).
Proof.
  intros ta tl te. split; [left; reflexivity|].
  repeat (split; [vm_compute; reflexivity|]). vm_compute. reflexivity.
Qed.

(** ** The success path of [compute_all] *)

(** On the success path the share count is a float, and the document is the
    success document built from the figures read from the selected data. *)
Lemma success_path_inv (ticker : string) (m : Market) (data : Selected) (doc : json) :
  success_path ticker m data doc ->
  let x := read_figures data in
  exists (f : float) (div_ps_ok : bool),
    shares x = PyNum f /\
    doc = success_document ticker data x
            (negb (is_nan f) && (0 <? f)) div_ps_ok (negb (is_nan f))
            (calculate_alpha (monthly_returns m) (info data) (beta_of (info data))).
Proof.
  intros (raw & _ & _ & H) x. unfold compute_selected in H. fold x in H.
  destruct (shares x) as [|f|s] eqn:Hs; simpl in H.
  - destruct (notna_and_positive _); discriminate.
  - destruct (notna_and_positive _) as [d|]; [|discriminate].
    simpl in H. injection H as <-.
    exists f, d. rewrite FloatFacts.leb_self. auto.
  - discriminate.
Qed.

Lemma success_path_compute_all (ticker : string) (m : Market) (data : Selected) (doc : json) :
  success_path ticker m data doc -> compute_all ticker m = doc.
Proof.
  intros (raw & H1 & H2 & H3). unfold compute_all, try_compute_all.
  rewrite H1. simpl. rewrite H2. simpl. rewrite H3. reflexivity.
Qed.

(** The two sample companies are on the success path. *)
Lemma acme_success :
  exists data, success_path "ACME" Sample.acme data (compute_all "ACME" Sample.acme).
Proof.
  eexists. eexists. split; [reflexivity|]. split; [reflexivity|].
  vm_compute. reflexivity.
Defined.

Lemma sparse_success :
  exists data, success_path "SPRS" Sample.sparse data (compute_all "SPRS" Sample.sparse).
Proof.
  eexists. eexists. split; [reflexivity|]. split; [reflexivity|].
  vm_compute. reflexivity.
Defined.

(** ** Piotroski F-Score *)

Lemma signal_le_1 (c : bool) : (signal c <= 1)%nat.
Proof. destruct c; simpl; lia. Qed.

(** The nine signals are 0 or 1 and [sum] adds them up. *)
Lemma piotroski_signals_range (x : Figures) (shares_le_shares : bool) :
  let signals := map snd (piotroski_signals x shares_le_shares) in
  List.length signals = 9%nat /\
  Forall (fun s => s = 0%nat \/ s = 1%nat) signals /\
  sum_values (piotroski_signals x shares_le_shares) = list_sum signals /\
  (list_sum signals <= 9)%nat.
Proof.
  unfold piotroski_signals, sum_values. simpl.
  split; [reflexivity|]. split; [|split; [lia|]].
  - repeat (apply Forall_cons;
            [match goal with |- context [signal ?c] => destruct c end; auto|]).
    constructor.
  - repeat match goal with
           | |- context [signal ?c] =>
               pose proof (signal_le_1 c); generalize dependent (signal c); intros
           end.
    lia.
Qed.

(** The display strings of the ten possible scores. *)
Lemma format_2f_table (n : nat) :
  (n <= 9)%nat ->
  nth_error ["0.00/9"; "1.00/9"; "2.00/9"; "3.00/9"; "4.00/9";
             "5.00/9"; "6.00/9"; "7.00/9"; "8.00/9"; "9.00/9"] n
  = Some (format_2f n ++ "/9").
Proof.
  intros Hn. do 10 (destruct n as [|n]; [reflexivity|]). lia.
Qed.

(** C7: the Piotroski score is the sum of the nine signals, each 0 or 1, so it
    is an integer between 0 and 9, and the display string is the score with
    two decimals followed by "/9": one of "0.00/9", "1.00/9", ..., "9.00/9". *)
Theorem piotroski_score_is_sum (ticker : string) (m : Market) (data : Selected) (doc : json) :
  success_path ticker m data doc ->
  exists signals : list nat,
    List.length signals = 9%nat /\
    Forall (fun s => s = 0%nat \/ s = 1%nat) signals /\
    at_path ["piotroski"; "signals"] doc
      = Some (JObj (combine signal_names (map (fun s => JInt (Z.of_nat s)) signals))) /\
    at_path ["piotroski"; "score"] doc = Some (JInt (Z.of_nat (list_sum signals))) /\
    (0 <= Z.of_nat (list_sum signals) <= 9)%Z /\
    at_path ["piotroski"; "fscore_display"] doc
      = Some (JStr (format_2f (list_sum signals) ++ "/9")) /\
    exists display,
      at_path ["piotroski"; "fscore_display"] doc = Some (JStr display) /\
      nth_error ["0.00/9"; "1.00/9"; "2.00/9"; "3.00/9"; "4.00/9";
                 "5.00/9"; "6.00/9"; "7.00/9"; "8.00/9"; "9.00/9"] (list_sum signals)
      = Some display.
Proof.
  intros H. destruct (success_path_inv _ _ _ _ H) as (f & d & _ & ->).
  set (x := read_figures data).
  destruct (piotroski_signals_range x (negb (is_nan f))) as (Hlen & Hbin & Hsum & Hle).
  exists (map snd (piotroski_signals x (negb (is_nan f)))).
  split; [exact Hlen|]. split; [exact Hbin|]. split; [reflexivity|].
  split; [simpl at_path; rewrite Hsum; reflexivity|].
  split; [lia|].
  split; [simpl at_path; rewrite Hsum; reflexivity|].
  exists (format_2f (list_sum (map snd (piotroski_signals x (negb (is_nan f))))) ++ "/9").
  split; [simpl at_path; rewrite Hsum; reflexivity|].
  apply format_2f_table, Hle.
Qed.

Lemma piotroski_score_is_sum_witness :
  at_path ["piotroski"; "score"] (compute_all "SPRS" Sample.sparse) = Some (JInt 7) /\
  at_path ["piotroski"; "fscore_display"] (compute_all "SPRS" Sample.sparse)
    = Some (JStr "7.00/9").
Proof.
  destruct sparse_success as [data Hs].
  destruct (piotroski_score_is_sum _ _ _ _ Hs)
    as (signals & _ & _ & _ & Hscore & _ & _ & display & Hdisplay & Hnth).
  assert (Hsum : list_sum signals = 7%nat).
  { change (at_path ["piotroski"; "score"] (compute_all "SPRS" Sample.sparse))
      with (Some (JInt 7)) in Hscore.
    injection Hscore as Hscore. lia. }
  rewrite Hsum in Hscore, Hnth. injection Hnth as <-.
  split; [exact Hscore | exact Hdisplay].
Defined.

(** The share-dilution signal compares the share count with itself, so it
    only tells whether the share count is a number. *)
Lemma f7_signal (ticker : string) (m : Market) (data : Selected) (doc : json) :
  success_path ticker m data doc ->
  exists f, shares (read_figures data) = PyNum f /\
            at_path ["piotroski"; "signals"; "F7"] doc
            = Some (JInt (if is_nan f then 0 else 1)).
Proof.
  intros H. destruct (success_path_inv _ _ _ _ H) as (f & d & Hs & ->).
  exists f. split; [exact Hs|]. destruct (is_nan f); reflexivity.
Qed.

(** C6 fails on the code: with no share count in the info snapshot the
    pipeline succeeds and F7 is 0. *)
Lemma f7_is_zero_without_share_count :
  (exists data, success_path "SPRS" Sample.sparse data (compute_all "SPRS" Sample.sparse)) /\
  at_path ["piotroski"; "signals"; "F7"] (compute_all "SPRS" Sample.sparse)
  = Some (JInt 0).
Proof. split; [exact sparse_success | reflexivity]. Qed.

(** C10: a Piotroski signal with an unknown (NaN) operand is 0; every signal
    is the integer 0 or 1 and the score an integer between 0 and 9, so none
    is ever unknown; in particular F7 is 0 when the share count is unknown. *)
Theorem piotroski_unknown_operand_scores_zero
    (ticker : string) (m : Market) (data : Selected) (doc : json) :
  success_path ticker m data doc ->
  let x := read_figures data in
  let F := fun k => at_path ["piotroski"; "signals"; k] doc in
  let unknown := fun v => is_nan v = true in
  (forall k, In k signal_names -> F k = Some (JInt 0) \/ F k = Some (JInt 1)) /\
  (exists score, at_path ["piotroski"; "score"] doc = Some (JInt score) /\
                 (0 <= score <= 9)%Z) /\
  (unknown (ROA_t x) -> F "F1" = Some (JInt 0)) /\
  (unknown (CFO_t x) -> F "F2" = Some (JInt 0)) /\
  (unknown (ROA_t x) \/ unknown (ROA_t1 x) -> F "F3" = Some (JInt 0)) /\
  (unknown (CFO_t x) \/ unknown (NetIncome_t x) -> F "F4" = Some (JInt 0)) /\
  (unknown (safe_div (TotalLiabilities_t x) (TotalAssets_t x)) \/
   unknown (safe_div (TotalLiabilities_t1 x) (TotalAssets_t1 x)) ->
   F "F5" = Some (JInt 0)) /\
  (unknown (safe_div (TotalCurrentAssets_t x) (TotalCurrentLiabilities_t x)) \/
   unknown (safe_div (TotalCurrentAssets_t1 x) (TotalCurrentLiabilities_t1 x)) ->
   F "F6" = Some (JInt 0)) /\
  (isna (shares x) = true -> F "F7" = Some (JInt 0)) /\
  (dict_get (info data) "sharesOutstanding" = None -> F "F7" = Some (JInt 0)) /\
  (unknown (safe_div (GrossProfit_t x) (TotalRevenue_t x)) \/
   unknown (safe_div (GrossProfit_t1 x) (TotalRevenue_t1 x)) ->
   F "F8" = Some (JInt 0)) /\
  (unknown (safe_div (TotalRevenue_t x) (TotalAssets_t x)) \/
   unknown (safe_div (TotalRevenue_t1 x) (TotalAssets_t1 x)) ->
   F "F9" = Some (JInt 0)).
Proof.
  intros H x F unknown.
  destruct (success_path_inv _ _ _ _ H) as (f & d & Hs & Hdoc).
  fold x in Hs. unfold F, unknown. subst doc.
  destruct (piotroski_signals_range x (negb (is_nan f))) as (_ & _ & Hsum & Hle).
  assert (Hcmp : forall a b, is_nan a = true \/ is_nan b = true -> signal (a <? b) = 0%nat).
  { intros a b [Ha | Hb];
      [rewrite (FloatFacts.ltb_nan_l _ _ Ha) | rewrite (FloatFacts.ltb_nan_r _ _ Hb)];
      reflexivity. }
  split.
  { intros k Hk. simpl in Hk.
    repeat (destruct Hk as [<- | Hk];
            [simpl; match goal with |- context [signal ?c] => destruct c end; auto|]).
    destruct Hk. }
  split.
  { exists (Z.of_nat (list_sum (map snd (piotroski_signals x (negb (is_nan f)))))).
    split; [simpl at_path; fold x; rewrite Hsum; reflexivity | lia]. }
  repeat split.
  - intros Hn. simpl. unfold ROA_t in *. rewrite Hcmp by auto. reflexivity.
  - intros Hn. simpl. rewrite Hcmp by auto. reflexivity.
  - intros Hn. simpl. rewrite Hcmp by tauto. reflexivity.
  - intros Hn. simpl. rewrite Hcmp by tauto. reflexivity.
  - intros Hn. simpl. rewrite Hcmp by tauto. reflexivity.
  - intros Hn. simpl. rewrite Hcmp by tauto. reflexivity.
  - rewrite Hs. simpl. intros ->. reflexivity.
  - intros Hn. assert (Hnan : shares x = PyNum nan).
    { unfold x, read_figures. simpl. unfold get_default. rewrite Hn. reflexivity. }
    rewrite Hs in Hnan. injection Hnan as ->. reflexivity.
  - intros Hn. simpl. rewrite Hcmp by tauto. reflexivity.
  - intros Hn. simpl. rewrite Hcmp by tauto. reflexivity.
Qed.

Lemma piotroski_unknown_operand_scores_zero_witness :
  at_path ["piotroski"; "signals"; "F6"] (compute_all "SPRS" Sample.sparse)
    = Some (JInt 0) /\
  at_path ["piotroski"; "signals"; "F7"] (compute_all "SPRS" Sample.sparse)
    = Some (JInt 0).
Proof.
  destruct sparse_success as [data Hs].
  pose proof (success_path_compute_all _ _ _ _ Hs) as Hdoc.
  destruct Hs as (raw & H1 & H2 & H3).
  injection H1 as <-. injection H2 as <-.
  pose proof (piotroski_unknown_operand_scores_zero "SPRS" Sample.sparse _ _
                (ex_intro _ _ (conj eq_refl (conj eq_refl H3))))
    as (_ & _ & _ & _ & _ & _ & _ & H6 & _ & H7 & _).
  split.
  - apply H6. left. reflexivity.
  - apply H7. reflexivity.
Defined.

(** ** Composite scores *)

Lemma names_append (prefix s k : string) : names s k -> names (prefix ++ s) k.
Proof.
  intros (before & after & ->). exists (prefix ++ before), after.
  induction prefix as [|c prefix IH]; simpl; [reflexivity | rewrite IH; reflexivity].
Qed.

Lemma names_concat (sep : string) (l : list string) (k : string) :
  In k l -> names (String.concat sep l) k.
Proof.
  induction l as [|a l IH]; [intros []|].
  intros [-> | Hin].
  - destruct l as [|b l]; simpl.
    + exists "", "". simpl. clear IH.
      induction k as [|c k IHk]; simpl; [reflexivity | rewrite <- IHk; reflexivity].
    + exists "", (sep ++ String.concat sep (b :: l)). reflexivity.
  - destruct l as [|b l]; [destruct Hin|].
    change (String.concat sep (a :: b :: l))
      with (a ++ sep ++ String.concat sep (b :: l)).
    apply names_append, names_append, IH, Hin.
Qed.

Lemma missing_components_spec (x : Figures) (k : string) :
  In k (missing_components x) <->
  exists v, In (k, v) (beneish_components x) /\ is_nan v = true.
Proof.
  unfold missing_components. rewrite in_map_iff. split.
  - intros ([k' v] & <- & H). apply filter_In in H. simpl in H.
    exists v. exact H.
  - intros (v & Hin & Hv). exists (k, v). rewrite filter_In. simpl. auto.
Qed.

(** C3: when a Beneish component is unknown, the composite is null and the
    reason lists every unknown component by name; when all eight are known,
    the composite is the weighted sum (rounded to 4 decimals in the document)
    and there is no reason; a number is reported only when all eight are
    known. *)
Theorem beneish_all_or_nothing (ticker : string) (m : Market) (data : Selected) (doc : json) :
  success_path ticker m data doc ->
  let x := read_figures data in
  let unknown := fun k => exists v, In (k, v) (beneish_components x) /\ is_nan v = true in
  map fst (beneish_components x)
    = ["DSRI"; "GMI"; "AQI"; "SGI"; "DEPI"; "SGAI"; "LVGI"; "TATA"] /\
  ((exists k, unknown k) ->
     beneish_m_score x = None /\
     at_path ["beneish"; "m"] doc = Some JNull /\
     exists reason,
       at_path ["beneish"; "reason"] doc = Some (JStr reason) /\
       reason = "insufficient_fields: " ++ String.concat ", " (missing_components x) /\
       forall k, unknown k -> In k (missing_components x) /\ names reason k) /\
  (~ (exists k, unknown k) ->
     let composite :=
       -4.84 + 0.92 * DSRI x + 0.528 * GMI x + 0.404 * AQI x + 0.892 * SGI x
       + 0.115 * DEPI x - 0.172 * SGAI x + 4.679 * TATA x - 0.327 * LVGI x in
     beneish_m_score x = Some composite /\
     at_path ["beneish"; "m"] doc = Some (JNum (round 4 composite)) /\
     at_path ["beneish"; "reason"] doc = Some JNull) /\
  (forall v, at_path ["beneish"; "m"] doc = Some (JNum v) -> ~ (exists k, unknown k)).
Proof.
  intros H x unknown.
  destruct (success_path_inv _ _ _ _ H) as (f & d & _ & ->). fold x.
  assert (Hmiss : forall k, unknown k <-> In k (missing_components x)).
  { intros k. symmetry. apply missing_components_spec. }
  split; [reflexivity|].
  simpl at_path. unfold beneish_m_score, beneish_reason.
  destruct (missing_components x) as [|k0 l] eqn:E.
  - assert (Hnone : ~ (exists k, unknown k)).
    { intros (k & Hk). apply Hmiss in Hk. exact Hk. }
    split; [intros Hk; contradiction|].
    split; [intros _; repeat split|]. intros v _. exact Hnone.
  - split.
    + intros _. split; [reflexivity|]. split; [reflexivity|].
      eexists. split; [reflexivity|]. split; [reflexivity|].
      intros k Hk. apply Hmiss in Hk. split; [exact Hk|].
      apply names_append, names_concat, Hk.
    + split; [|intros v; discriminate].
      intros Hk. exfalso. apply Hk. exists k0. apply Hmiss. left. reflexivity.
Qed.

Lemma beneish_all_or_nothing_witness :
  at_path ["beneish"; "m"] (compute_all "SPRS" Sample.sparse) = Some JNull /\
  at_path ["beneish"; "reason"] (compute_all "SPRS" Sample.sparse)
    = Some (JStr "insufficient_fields: DSRI, SGAI") /\
  at_path ["beneish"; "m"] (compute_all "ACME" Sample.acme)
    = Some (JNum (-2.4662)).
Proof.
  destruct sparse_success as [data Hs]. destruct acme_success as [data' Ha].
  pose proof (success_path_compute_all _ _ _ _ Hs) as Hdoc.
  pose proof (success_path_compute_all _ _ _ _ Ha) as Hdoc'.
  destruct Hs as (raw & H1 & H2 & H3). injection H1 as <-. injection H2 as <-.
  destruct Ha as (raw' & H1' & H2' & H3'). injection H1' as <-. injection H2' as <-.
  pose proof (beneish_all_or_nothing "SPRS" Sample.sparse _ _
                (ex_intro _ _ (conj eq_refl (conj eq_refl H3)))) as (_ & Hmissing & _).
  pose proof (beneish_all_or_nothing "ACME" Sample.acme _ _
                (ex_intro _ _ (conj eq_refl (conj eq_refl H3')))) as (_ & _ & Hall & _).
  destruct Hmissing as (_ & Hm & reason & Hr & -> & _).
  { exists "DSRI", nan. split; [left|]; reflexivity. }
  destruct Hall as (_ & Hm' & _).
  { intros (k & v & Hin & Hv). simpl in Hin.
    repeat (destruct Hin as [Hin | Hin]; [injection Hin as <- <-; discriminate Hv|]).
    destruct Hin. }
  split; [exact Hm|]. split; [exact Hr | exact Hm'].
Defined.

(** C8 as stated fails on the reason: two companies with different sets of
    unknown Altman components (A and B for the one, B alone for the other)
    get the same reason string, which is not the list of the unknown
    components that the Beneish reason of the same document is. *)
Lemma altman_reason_is_one_sentence :
  (exists data, success_path "SPRS" Sample.sparse data (compute_all "SPRS" Sample.sparse)) /\
  (exists data,
     success_path "NORE" Sample.no_retained data (compute_all "NORE" Sample.no_retained)) /\
  at_path ["altman"; "components"] (compute_all "SPRS" Sample.sparse)
    = Some (JObj [ ("a", JNull); ("b", JNull); ("c", JNum 0.24); ("d", JNum 1.5);
                   ("e", JNum 1.2) ]) /\
  at_path ["altman"; "components"] (compute_all "NORE" Sample.no_retained)
    = Some (JObj [ ("a", JNum 0.25); ("b", JNull); ("c", JNum 0.24); ("d", JNum 1.5);
                   ("e", JNum 1.2) ]) /\
  at_path ["altman"; "reason"] (compute_all "SPRS" Sample.sparse)
    = Some (JStr "insufficient_fields: missing working capital, retained earnings, EBIT, equity, or revenue data") /\
  at_path ["altman"; "reason"] (compute_all "NORE" Sample.no_retained)
    = at_path ["altman"; "reason"] (compute_all "SPRS" Sample.sparse) /\
  at_path ["beneish"; "reason"] (compute_all "SPRS" Sample.sparse)
    = Some (JStr "insufficient_fields: DSRI, SGAI").
Proof.
  split; [exact sparse_success|].
  split.
  { eexists. eexists. split; [reflexivity|]. split; [reflexivity|].
    vm_compute. reflexivity. }
  repeat (split; [vm_compute; reflexivity|]). vm_compute. reflexivity.
Qed.

(** C8 (amended): when an Altman component is unknown, the composite is null
    and the reason is one fixed sentence, the same whichever components are
    unknown; when all five are known, the composite is the weighted sum
    (rounded to 4 decimals in the document) and there is no reason; a number
    is reported only when all five are known. *)
Theorem altman_all_or_nothing (ticker : string) (m : Market) (data : Selected) (doc : json) :
  success_path ticker m data doc ->
  let x := read_figures data in
  let components :=
    [("a", altman_a x); ("b", altman_b x); ("c", altman_c x);
     ("d", altman_d x); ("e", altman_e x)] in
  let unknown := fun k => exists v, In (k, v) components /\ is_nan v = true in
  at_path ["altman"; "components"] doc
    = Some (JObj (map (fun kv => (fst kv, round4_or_none (snd kv))) components)) /\
  ((exists k, unknown k) ->
     altman_z_score x = None /\
     at_path ["altman"; "z"] doc = Some JNull /\
     at_path ["altman"; "reason"] doc
       = Some (JStr "insufficient_fields: missing working capital, retained earnings, EBIT, equity, or revenue data")) /\
  (~ (exists k, unknown k) ->
     let composite :=
       1.2 * altman_a x + 1.4 * altman_b x + 3.3 * altman_c x + 0.6 * altman_d x
       + 1.0 * altman_e x in
     altman_z_score x = Some composite /\
     at_path ["altman"; "z"] doc = Some (JNum (round 4 composite)) /\
     at_path ["altman"; "reason"] doc = Some JNull) /\
  (forall v, at_path ["altman"; "z"] doc = Some (JNum v) -> ~ (exists k, unknown k)).
Proof.
  intros H x components unknown.
  destruct (success_path_inv _ _ _ _ H) as (f & d & _ & ->). fold x.
  assert (Hany : existsb is_nan (altman_components x) = true <-> exists k, unknown k).
  { unfold altman_components, unknown, components. simpl. split.
    - intros Hex.
      repeat (apply orb_true_iff in Hex; destruct Hex as [Hex | Hex];
              [eexists; eexists; split; [|exact Hex]; simpl; tauto|]).
      discriminate.
    - intros (k & v & Hin & Hv). simpl in Hin.
      repeat (destruct Hin as [Hin | Hin];
              [injection Hin as <- <-; rewrite Hv, ?orb_true_r; reflexivity|]).
      destruct Hin. }
  split; [reflexivity|].
  simpl at_path. unfold altman_z_score, altman_reason.
  destruct (existsb is_nan (altman_components x)) eqn:E.
  - split.
    + intros _. split; [reflexivity|]. split; reflexivity.
    + split; [|intros v; discriminate].
      intros Hk. exfalso. apply Hk, Hany. reflexivity.
  - assert (Hnone : ~ (exists k, unknown k)).
    { intros Hk. apply Hany in Hk. discriminate. }
    split; [intros Hk; contradiction|].
    split; [intros _; repeat split|]. intros v _. exact Hnone.
Qed.

Lemma altman_all_or_nothing_witness :
  at_path ["altman"; "z"] (compute_all "SPRS" Sample.sparse) = Some JNull /\
  at_path ["altman"; "reason"] (compute_all "SPRS" Sample.sparse)
    = Some (JStr "insufficient_fields: missing working capital, retained earnings, EBIT, equity, or revenue data") /\
  at_path ["altman"; "z"] (compute_all "ACME" Sample.acme) = Some (JNum 3.682).
Proof.
  destruct sparse_success as [data Hs]. destruct acme_success as [data' Ha].
  destruct Hs as (raw & H1 & H2 & H3). injection H1 as <-. injection H2 as <-.
  destruct Ha as (raw' & H1' & H2' & H3'). injection H1' as <-. injection H2' as <-.
  pose proof (altman_all_or_nothing "SPRS" Sample.sparse _ _
                (ex_intro _ _ (conj eq_refl (conj eq_refl H3)))) as (_ & Hmissing & _).
  pose proof (altman_all_or_nothing "ACME" Sample.acme _ _
                (ex_intro _ _ (conj eq_refl (conj eq_refl H3')))) as (_ & _ & Hall & _).
  destruct Hmissing as (_ & Hz & Hr).
  { exists "a", nan. split; [left|]; reflexivity. }
  destruct Hall as (_ & Hz' & _).
  { intros (k & v & Hin & Hv). simpl in Hin.
    repeat (destruct Hin as [Hin | Hin]; [injection Hin as <- <-; discriminate Hv|]).
    destruct Hin. }
  split; [exact Hz|]. split; [exact Hr | exact Hz'].
Defined.

(** ** Non-finite values in the document *)








(** The products and the composites overflow: with amounts of the order of
    1e300 against assets of the order of 1e-10 every factor is finite, the
    DuPont product is infinite and the Altman composite is NaN, and both are
    placed in the document. *)
Lemma products_and_composites_overflow :
  (exists data,
     success_path "XTRM" Sample.extreme data (compute_all "XTRM" Sample.extreme)) /\
  at_path ["dupont"; "roe_3step"] (compute_all "XTRM" Sample.extreme)
    = Some (JObj [ ("npm", JNum 1e300); ("asset_turnover", JNum 1e10);
                   ("equity_multiplier", JNum 1); ("roe", JNum infinity) ]) /\
  at_path ["ratios"; "roe_adjusted"] (compute_all "XTRM" Sample.extreme)
    = Some (JNum infinity) /\
  at_path ["altman"; "components"] (compute_all "XTRM" Sample.extreme)
    = Some (JObj [ ("a", JNum 1.6e308); ("b", JNum (-1.6e308)); ("c", JNum 1e308);
                   ("d", JNum 1); ("e", JNum 1e10) ]) /\
  at_path ["altman"; "z"] (compute_all "XTRM" Sample.extreme) = Some (JNum nan).
Proof.
  split.
  { eexists. eexists. split; [reflexivity|]. split; [reflexivity|].
    vm_compute. reflexivity. }
  repeat (split; [vm_compute; reflexivity|]). vm_compute. reflexivity.
Qed.



(** * Further properties of the code *)

(** ** NaN through the arithmetic *)

Module NanFacts.
Import FloatFacts.

Lemma add_nan (x y : float) : is_nan x = true \/ is_nan y = true -> is_nan (x + y) = true.
Proof.
  intros H. apply is_nan_Prim2SF. rewrite add_spec.
  destruct H as [H | H]; apply is_nan_Prim2SF in H; rewrite H;
    [|destruct (Prim2SF x)]; reflexivity.
Qed.

Lemma sub_nan (x y : float) : is_nan x = true \/ is_nan y = true -> is_nan (x - y) = true.
Proof.
  intros H. apply is_nan_Prim2SF. rewrite sub_spec.
  destruct H as [H | H]; apply is_nan_Prim2SF in H; rewrite H;
    [|destruct (Prim2SF x)]; reflexivity.
Qed.

Lemma mul_nan (x y : float) : is_nan x = true \/ is_nan y = true -> is_nan (x * y) = true.
Proof.
  intros H. apply is_nan_Prim2SF. rewrite mul_spec.
  destruct H as [H | H]; apply is_nan_Prim2SF in H; rewrite H;
    [|destruct (Prim2SF x)]; reflexivity.
Qed.

Lemma div_nan (x y : float) : is_nan x = true \/ is_nan y = true -> is_nan (x / y) = true.
Proof.
  intros H. apply is_nan_Prim2SF. rewrite div_spec.
  destruct H as [H | H]; apply is_nan_Prim2SF in H; rewrite H;
    [|destruct (Prim2SF x)]; reflexivity.
Qed.

Lemma abs_nan (x : float) : is_nan x = true -> is_nan (abs x) = true.
Proof.
  intros H. apply is_nan_Prim2SF. rewrite abs_spec.
  apply is_nan_Prim2SF in H. rewrite H. reflexivity.
Qed.

(** A finite float is a zero or a finite number. *)
Lemma finite_Prim2SF (x : float) :
  is_finite x = true ->
  (exists s, Prim2SF x = S754_zero s) \/ (exists s m e, Prim2SF x = S754_finite s m e).
Proof.
  unfold is_finite, is_infinity. rewrite negb_true_iff, orb_false_iff.
  intros [Hn Hi]. apply not_nan_Prim2SF in Hn.
  rewrite eqb_spec, abs_spec, Prim2SF_infinity in Hi.
  destruct (Prim2SF x) as [s|s| |s m e]; try congruence; eauto.
  discriminate Hi.
Qed.

(** The halved sum of two finite floats may overflow, but it is not NaN. *)
Lemma half_sum_not_nan (x y : float) :
  is_finite x = true -> is_finite y = true -> is_nan ((x + y) / 2) = false.
Proof.
  intros Hx Hy. apply not_nan_Prim2SF. rewrite div_spec, add_spec.
  change (Prim2SF 2) with (S754_finite false 4503599627370496 (-51)).
  assert (Hsum : SF64add (Prim2SF x) (Prim2SF y) <> S754_nan).
  { destruct (finite_Prim2SF x Hx) as [(s1 & ->) | (s1 & m1 & e1 & ->)],
             (finite_Prim2SF y Hy) as [(s2 & ->) | (s2 & m2 & e2 & ->)];
      unfold SF64add; simpl; try discriminate.
    - destruct s1, s2; discriminate.
    - apply RoundFacts.binary_normalize_not_nan. }
  unfold SF64div.
  destruct (SF64add (Prim2SF x) (Prim2SF y)) as [s|s| |s m e]; try discriminate.
  - congruence.
  - apply RoundFacts.SFdiv_finite_not_nan.
Qed.

End NanFacts.

(** ** [avg] *)

(** X1: [avg] is NaN exactly when an operand is NaN or infinite; otherwise it is
    the halved sum. *)
Theorem avg_nan_iff (x y : float) :
  (is_nan (avg x y) = true <-> is_finite x = false \/ is_finite y = false) /\
  (is_finite x = true -> is_finite y = true -> avg x y = (x + y) / 2).
Proof.
  unfold avg, is_finite.
  destruct (is_nan x) eqn:Hx; simpl; [split; [split; auto | intros; discriminate]|].
  destruct (is_nan y) eqn:Hy; simpl; [split; [split; auto | intros; discriminate]|].
  destruct (is_infinity x) eqn:Ix; simpl; [split; [split; auto | intros; discriminate]|].
  destruct (is_infinity y) eqn:Iy; simpl; [split; [split; auto | intros; discriminate]|].
  split; [|reflexivity].
  rewrite (NanFacts.half_sum_not_nan x y).
  - split; [discriminate | intros [H | H]; discriminate].
  - unfold is_finite. rewrite Hx, Ix. reflexivity.
  - unfold is_finite. rewrite Hy, Iy. reflexivity.
Qed.

(** ** [safe_div] never overflows *)

(** X2: [safe_div] returns NaN or a finite float, never an infinity; on a zero
    denominator of either sign it returns NaN. *)
Theorem safe_div_finite_or_nan (a b : float) :
  is_infinity (safe_div a b) = false /\
  is_finite (safe_div a b) = negb (is_nan (safe_div a b)) /\
  safe_div a 0 = nan /\ safe_div a (-0) = nan.
Proof.
  assert (H : is_infinity (safe_div a b) = false).
  { unfold safe_div.
    destruct (is_nan a || is_nan b); [reflexivity|].
    destruct (abs b <? eps_div); [reflexivity|].
    destruct (is_infinity (a / b)) eqn:E; [reflexivity | exact E]. }
  split; [exact H|]. split.
  - unfold is_finite. rewrite H, orb_false_r. reflexivity.
  - unfold safe_div. split; destruct (is_nan a); reflexivity.
Qed.

(** ** [normalize_field_names] *)

(** [field_mappings.get(name, name)] *)
Lemma canonical_idempotent (name : string) :
  let canonical := fun n => get_default field_mappings n n in
  canonical (canonical name) = canonical name.
Proof.
  intros canonical. unfold canonical at 2 3. unfold get_default.
  destruct (dict_get field_mappings name) as [v|] eqn:E.
  - assert (Hin : In v (map snd field_mappings)).
    { clear canonical. revert E. generalize field_mappings. intros d.
      induction d as [|[k w] d IH]; simpl; [discriminate|].
      destruct (k =? name)%string; [intros [= ->]; auto | auto]. }
    assert (Hall : forallb (fun w => (canonical w =? w)%string) (map snd field_mappings) = true)
      by (vm_compute; reflexivity).
    rewrite forallb_forall in Hall. apply String.eqb_eq, Hall, Hin.
  - unfold canonical, get_default. rewrite E. reflexivity.
Qed.

Lemma normalize_rows_labels (seen : list string) (rs : list (string * list float)) :
  NoDup (map fst (normalize_rows seen rs)) /\
  forall n, In n (map fst (normalize_rows seen rs)) -> ~ In n seen.
Proof.
  revert seen. induction rs as [|[name cells] rs IH]; intros seen; simpl.
  - split; [constructor | intros n []].
  - destruct (mem _ seen) eqn:E.
    + apply IH.
    + destruct (IH (get_default field_mappings name name :: seen)) as [Hnd Hout].
      simpl. split.
      * constructor; [|exact Hnd]. intros Hin. apply (Hout _ Hin). left. reflexivity.
      * intros n [<- | Hin].
        -- intros Hs. apply mem_In in Hs. congruence.
        -- intros Hs. apply (Hout _ Hin). right. exact Hs.
Qed.

(** X3: After normalization a table has at most one row per name, and the same
    columns as before. *)
Theorem normalize_field_names_unique (df : DataFrame) :
  NoDup (index (normalize_field_names df)) /\
  columns (normalize_field_names df) = columns df.
Proof.
  split; [|reflexivity]. apply (normalize_rows_labels [] (rows df)).
Qed.

(** The first raw row whose label normalizes to [n]. *)
Lemma normalize_rows_loc (seen : list string) (rs : list (string * list float)) (n : string) :
  ~ In n seen ->
  loc (normalize_rows seen rs) n
  = option_map snd
      (find (fun row => (get_default field_mappings (fst row) (fst row) =? n)%string) rs).
Proof.
  revert seen. induction rs as [|[name cells] rs IH]; intros seen Hn; simpl; [reflexivity|].
  destruct (get_default field_mappings name name =? n)%string eqn:E.
  - apply String.eqb_eq in E. rewrite E.
    destruct (mem n seen) eqn:M; [apply mem_In in M; contradiction|].
    simpl. rewrite String.eqb_refl. reflexivity.
  - destruct (mem _ seen) eqn:M.
    + apply IH, Hn.
    + simpl. rewrite E. apply IH. intros [H | H]; [|contradiction].
      apply String.eqb_neq in E. contradiction.
Qed.

(** X4: Synonyms collapse on the first: the row found under a name after
    normalization is the first raw row whose label maps to that name. *)
Theorem normalize_field_names_first_wins (df : DataFrame) (n : string) :
  loc (rows (normalize_field_names df)) n
  = option_map snd
      (find (fun row => (get_default field_mappings (fst row) (fst row) =? n)%string)
            (rows df)).
Proof. apply normalize_rows_loc. intros []. Qed.

Lemma normalize_rows_fixed (seen : list string) (rs : list (string * list float)) :
  NoDup (map fst rs) ->
  (forall n, In n (map fst rs) -> ~ In n seen) ->
  (forall n, In n (map fst rs) -> get_default field_mappings n n = n) ->
  normalize_rows seen rs = rs.
Proof.
  revert seen. induction rs as [|[name cells] rs IH]; intros seen Hnd Hout Hcanon; simpl;
    [reflexivity|].
  simpl in *. inversion Hnd as [|? ? Hnotin Hnd']; subst.
  rewrite (Hcanon name) by auto.
  destruct (mem name seen) eqn:M.
  - apply mem_In in M. exfalso. apply (Hout name); auto.
  - f_equal. apply IH; auto.
    intros n Hin [<- | Hs]; [contradiction | apply (Hout n); auto].
Qed.

(** X5: Normalizing twice changes nothing more. *)
Theorem normalize_field_names_idempotent (df : DataFrame) :
  normalize_field_names (normalize_field_names df) = normalize_field_names df.
Proof.
  unfold normalize_field_names. simpl. f_equal.
  destruct (normalize_rows_labels [] (rows df)) as [Hnd _].
  apply normalize_rows_fixed; [exact Hnd | intros n _ [] |].
  intros n Hin. clear Hnd. revert Hin. generalize (@nil string).
  induction (rows df) as [|[name cells] rs IH]; intros seen; simpl; [intros []|].
  destruct (mem _ seen).
  - apply IH.
  - simpl. intros [<- | Hin]; [apply canonical_idempotent | exact (IH _ Hin)].
Qed.

(** ** [select_two_years] *)

Lemma string_compare_lt_trans (a b c : string) :
  String.compare a b = Lt -> String.compare b c = Lt -> String.compare a c = Lt.
Proof.
  revert b c. induction a as [|x a IH]; intros [|y b] [|z c]; simpl;
    try discriminate; try reflexivity.
  unfold Ascii.compare.
  destruct (N.compare_spec (N_of_ascii x) (N_of_ascii y)) as [Exy | Lxy | Gxy];
    try discriminate;
    destruct (N.compare_spec (N_of_ascii y) (N_of_ascii z)) as [Eyz | Lyz | Gyz];
    try discriminate; intros H1 H2.
  - rewrite Exy, Eyz, N.compare_refl. eapply IH; eassumption.
  - rewrite Exy. apply N.compare_lt_iff in Lyz. rewrite Lyz. reflexivity.
  - rewrite <- Eyz. apply N.compare_lt_iff in Lxy. rewrite Lxy. reflexivity.
  - assert (L : (N_of_ascii x < N_of_ascii z)%N) by lia.
    apply N.compare_lt_iff in L. rewrite L. reflexivity.
Qed.

Lemma string_leb_trans (a b c : string) :
  String.leb a b = true -> String.leb b c = true -> String.leb a c = true.
Proof.
  unfold String.leb.
  destruct (String.compare a b) eqn:Eab; try discriminate;
    destruct (String.compare b c) eqn:Ebc; try discriminate; intros _ _.
  - apply String.compare_eq_iff in Eab. subst. rewrite Ebc. reflexivity.
  - apply String.compare_eq_iff in Eab. subst. rewrite Ebc. reflexivity.
  - apply String.compare_eq_iff in Ebc. subst. rewrite Eab. reflexivity.
  - rewrite (string_compare_lt_trans _ _ _ Eab Ebc). reflexivity.
Qed.

Lemma string_leb_refl (a : string) : String.leb a a = true.
Proof. destruct (String.leb_total a a); assumption. Qed.

Lemma insert_desc_perm (x : string) (l : list string) :
  Permutation (x :: l) (insert_desc x l).
Proof.
  induction l as [|y l IH]; simpl; [reflexivity|].
  destruct (String.leb y x); [reflexivity|].
  rewrite perm_swap. constructor. exact IH.
Qed.

Lemma sorted_reverse_perm (l : list string) : Permutation l (sorted_reverse l).
Proof.
  induction l as [|x l IH]; simpl; [constructor|].
  rewrite <- insert_desc_perm. constructor. exact IH.
Qed.

Lemma insert_desc_sorted (x : string) (l : list string) :
  StronglySorted (fun a b => String.leb b a = true) l ->
  StronglySorted (fun a b => String.leb b a = true) (insert_desc x l).
Proof.
  induction l as [|y l IH]; intros Hs; simpl.
  - constructor; constructor.
  - inversion Hs as [|? ? Hs' Hall]; subst.
    destruct (String.leb y x) eqn:E.
    + constructor; [exact Hs|]. constructor; [exact E|].
      eapply Forall_impl; [|exact Hall]. intros b Hb.
      exact (string_leb_trans _ _ _ Hb E).
    + constructor; [apply IH, Hs'|].
      eapply Permutation_Forall; [apply insert_desc_perm|].
      constructor; [|exact Hall].
      destruct (String.leb_total x y) as [H | H]; [exact H | congruence].
Qed.

Lemma sorted_reverse_sorted (l : list string) :
  StronglySorted (fun a b => String.leb b a = true) (sorted_reverse l).
Proof.
  induction l as [|x l IH]; simpl; [constructor | apply insert_desc_sorted, IH].
Qed.

(** X6: When it succeeds, [select_two_years] returns two distinct periods that
    are columns of all three statements, the later one first, and no common
    period lies after the second other than the first. *)
Theorem select_two_years_latest (raw : RawData) (data : Selected) :
  select_two_years raw = Ok data ->
  exists y0 y1,
    years data = [y0; y1] /\ y0 <> y1 /\ String.leb y1 y0 = true /\
    (forall y, In y [y0; y1] ->
       In y (columns (income data)) /\ In y (columns (balance data)) /\
       In y (columns (cashflow data))) /\
    (forall y, In y (common_years raw) -> y = y0 \/ String.leb y y1 = true).
Proof.
  unfold select_two_years.
  destruct (List.length (common_years raw) <? 2)%nat eqn:Hlen; [discriminate|].
  intros [= <-]. simpl.
  apply Nat.ltb_ge in Hlen.
  pose proof (sorted_reverse_perm (common_years raw)) as Hperm.
  pose proof (sorted_reverse_sorted (common_years raw)) as Hsorted.
  pose proof (Permutation_NoDup Hperm (common_years_NoDup raw)) as Hnd.
  apply Permutation_length in Hperm as Hsame. unfold period in *. rewrite Hsame in Hlen.
  destruct (sorted_reverse (common_years raw)) as [|y0 [|y1 rest]];
    simpl in Hlen; try lia.
  exists y0, y1. simpl.
  inversion Hsorted as [|? ? Hs0 Hall0]; subst.
  inversion Hs0 as [|? ? Hs1 Hall1]; subst.
  inversion Hall0 as [|? ? Hle _]; subst.
  inversion Hnd as [|? ? Hnotin _]; subst.
  split; [reflexivity|]. split; [intros ->; apply Hnotin; left; reflexivity|].
  split; [exact Hle|]. split.
  - intros y Hy. apply common_years_spec.
    apply (Permutation_in _ (Permutation_sym Hperm)).
    destruct Hy as [<- | [<- | []]]; simpl; auto.
  - intros y Hy. apply (Permutation_in _ Hperm) in Hy.
    destruct Hy as [<- | [<- | Hy]]; [auto | right; apply string_leb_refl |].
    right. rewrite Forall_forall in Hall1. apply Hall1, Hy.
Qed.

Lemma select_two_years_latest_witness :
  exists y0 y1,
    [y0; y1] = ["2023-12-31"; "2022-12-31"] /\ y0 <> y1 /\ String.leb y1 y0 = true.
Proof.
  destruct (select_two_years_latest
              (mkRawData Sample.income_stmt Sample.balance_sheet Sample.cash_flow
                         Sample.market_info) _ eq_refl)
    as (y0 & y1 & Hy & Hne & Hle & _).
  exists y0, y1. simpl in Hy. injection Hy as <- <-. auto.
Defined.

(** ** [sanitize_for_json] *)

Lemma json_nested_ind (P : json -> Prop) :
  P JNull -> (forall b, P (JBool b)) -> (forall z, P (JInt z)) ->
  (forall f, P (JNum f)) -> (forall s, P (JStr s)) ->
  (forall items, Forall P items -> P (JList items)) ->
  (forall fields, Forall (fun kv => P (snd kv)) fields -> P (JObj fields)) ->
  forall doc, P doc.
Proof.
  intros Hnull Hbool Hint Hnum Hstr Hlist Hobj.
  fix IH 1.
  intros [ |b|z|f|s|items|fields];
    [exact Hnull | apply Hbool | apply Hint | apply Hnum | apply Hstr | | ].
  - apply Hlist. induction items as [|item items IHitems]; constructor;
      [apply IH | exact IHitems].
  - apply Hobj. induction fields as [|[k v] fields IHfields]; constructor;
      [apply IH | exact IHfields].
Qed.

Lemma forallb_flat_map {A B : Type} (p : B -> bool) (f : A -> list B) (l : list A) :
  forallb p (flat_map f l) = forallb (fun a => forallb p (f a)) l.
Proof.
  induction l as [|a l IH]; simpl; [reflexivity|].
  rewrite forallb_app, IH. reflexivity.
Qed.

Lemma existsb_flat_map {A B : Type} (p : B -> bool) (f : A -> list B) (l : list A) :
  existsb p (flat_map f l) = existsb (fun a => existsb p (f a)) l.
Proof.
  induction l as [|a l IH]; simpl; [reflexivity|].
  rewrite existsb_app, IH. reflexivity.
Qed.

Lemma bind_Ok {A B : Type} (r : result A) (k : A -> result B) (b : B) :
  bind r k = Ok b -> exists a, r = Ok a /\ k a = Ok b.
Proof. destruct r as [a|msg]; simpl; [eauto | discriminate]. Qed.

(** A comprehension that ends gives one result per item, in order. *)
Lemma map_result_Ok {A B : Type} (f : A -> result B) (l : list A) (l' : list B) :
  map_result f l = Ok l' <-> Forall2 (fun a b => f a = Ok b) l l'.
Proof.
  split.
  - revert l'. induction l as [|a l IH]; simpl; intros l' H.
    + injection H as <-. constructor.
    + apply bind_Ok in H as (b & Hb & H). apply bind_Ok in H as (bs & Hbs & H).
      injection H as <-. constructor; auto.
  - induction 1 as [|a b l l' Hab _ IH]; simpl; [reflexivity|].
    rewrite Hab. simpl. rewrite IH. reflexivity.
Qed.

Lemma Forall2_Forall_r {A B : Type} (R : A -> B -> Prop) (P : A -> Prop) (Q : B -> Prop)
    (l : list A) (l' : list B) :
  (forall a b, P a -> R a b -> Q b) -> Forall P l -> Forall2 R l l' -> Forall Q l'.
Proof.
  intros HPQ HP HR. induction HR as [|a b l l' Hab _ IH]; constructor.
  - apply (HPQ a b); [apply (Forall_inv HP) | exact Hab].
  - apply IH, (Forall_inv_tail HP).
Qed.

(** What [sanitize_for_json] returns holds no NaN, no infinity and no int
    that [np.isnan] rejects. *)
Lemma sanitized_leaves (value clean : json) :
  sanitize_for_json value = Ok clean ->
  forallb (fun leaf => negb (non_finite_leaf leaf) && negb (oversized_int_leaf leaf))
          (leaves clean) = true.
Proof.
  revert clean.
  induction value as [ |b|z|f|s|items IH|fields IH] using json_nested_ind;
    intros clean H; simpl in H.
  - injection H as <-. reflexivity.
  - injection H as <-. reflexivity.
  - destruct (fits_int64_or_uint64 z) eqn:E; [|discriminate].
    injection H as <-. simpl. rewrite E. reflexivity.
  - injection H as <-.
    destruct (is_nan f || is_infinity f) eqn:E; simpl; [reflexivity|].
    rewrite E. reflexivity.
  - injection H as <-. reflexivity.
  - apply bind_Ok in H as (items' & Hitems & H). injection H as <-.
    apply map_result_Ok in Hitems. simpl.
    rewrite forallb_flat_map, forallb_forall. apply Forall_forall.
    apply (Forall2_Forall_r _ _ _ _ _ (fun a b Ha Hab => Ha b Hab) IH Hitems).
  - apply bind_Ok in H as (fields' & Hfields & H). injection H as <-.
    apply map_result_Ok in Hfields. simpl.
    rewrite forallb_flat_map, forallb_forall. apply Forall_forall.
    refine (Forall2_Forall_r _ _ _ _ _ _ IH Hfields).
    intros kv kv' Hkv Hs. apply bind_Ok in Hs as (v & Hv & Hs).
    injection Hs as <-. apply Hkv, Hv.
Qed.

(** A document of such leaves comes back as it is. *)
Lemma sanitize_for_json_fixed (value : json) :
  forallb (fun leaf => negb (non_finite_leaf leaf) && negb (oversized_int_leaf leaf))
          (leaves value) = true ->
  sanitize_for_json value = Ok value.
Proof.
  induction value as [ |b|z|f|s|items IH|fields IH] using json_nested_ind;
    try reflexivity; simpl.
  - destruct (fits_int64_or_uint64 z); [reflexivity | discriminate].
  - destruct (is_nan f || is_infinity f); [discriminate | reflexivity].
  - rewrite forallb_flat_map, forallb_forall. intros Hall.
    assert (Hitems : map_result sanitize_for_json items = Ok items).
    { apply map_result_Ok. induction items as [|item items IHitems]; constructor.
      - apply (Forall_inv IH), Hall. left. reflexivity.
      - apply IHitems; [exact (Forall_inv_tail IH)|].
        intros a Ha. apply Hall. right. exact Ha. }
    rewrite Hitems. reflexivity.
  - rewrite forallb_flat_map, forallb_forall. intros Hall.
    assert (Hfields : map_result (fun kv => v <- sanitize_for_json (snd kv) ;; Ok (fst kv, v))
                                 fields = Ok fields).
    { apply map_result_Ok. induction fields as [|[k v] fields IHfields]; constructor.
      - pose proof (Forall_inv IH) as Hkv. simpl in Hkv. simpl.
        rewrite Hkv; [reflexivity|].
        apply (Hall (k, v)). left. reflexivity.
      - apply IHfields; [exact (Forall_inv_tail IH)|].
        intros a Ha. apply Hall. right. exact Ha. }
    rewrite Hfields. reflexivity.
Qed.

(** [sanitize_for_json] ends exactly when the document holds no int that
    [np.isnan] rejects; otherwise it raises the [TypeError] of the ufunc. *)
Lemma sanitize_for_json_outcome (value : json) :
  (existsb oversized_int_leaf (leaves value) = false /\
   exists clean, sanitize_for_json value = Ok clean) \/
  (existsb oversized_int_leaf (leaves value) = true /\
   sanitize_for_json value = Raise isnan_type_error).
Proof.
  induction value as [ |b|z|f|s|items IH|fields IH] using json_nested_ind;
    try (left; split; [reflexivity | eexists; reflexivity]).
  - simpl. destruct (fits_int64_or_uint64 z); [left | right]; eauto.
  - simpl. rewrite existsb_flat_map.
    assert (H : (existsb (fun a => existsb oversized_int_leaf (leaves a)) items = false /\
                 exists items', map_result sanitize_for_json items = Ok items') \/
                (existsb (fun a => existsb oversized_int_leaf (leaves a)) items = true /\
                 map_result sanitize_for_json items = Raise isnan_type_error)).
    { induction IH as [|item items Hitem _ IHitems]; simpl; [left; eauto|].
      destruct Hitem as [(-> & c & ->) | (-> & ->)]; simpl; [|right; auto].
      destruct IHitems as [(-> & cs & ->) | (-> & ->)]; simpl; [left | right]; eauto. }
    destruct H as [(-> & items' & ->) | (-> & ->)]; simpl; [left | right]; eauto.
  - simpl. rewrite existsb_flat_map.
    set (f := fun kv : string * json => v <- sanitize_for_json (snd kv) ;; Ok (fst kv, v)).
    assert (H : (existsb (fun kv => existsb oversized_int_leaf (leaves (snd kv))) fields = false /\
                 exists fields', map_result f fields = Ok fields') \/
                (existsb (fun kv => existsb oversized_int_leaf (leaves (snd kv))) fields = true /\
                 map_result f fields = Raise isnan_type_error)).
    { induction IH as [|kv fields Hkv _ IHfields]; simpl; [left; eauto|].
      unfold f at 1 3.
      destruct Hkv as [(-> & c & ->) | (-> & ->)]; simpl; [|right; auto].
      destruct IHfields as [(-> & cs & ->) | (-> & ->)]; simpl; [left | right]; eauto. }
    destruct H as [(-> & fields' & ->) | (-> & ->)]; simpl; [left | right]; eauto.
Qed.

(** *** The ints of the documents [compute_all] returns *)

Lemma no_oversized_obj (fields : list (string * json)) :
  Forall (fun kv => existsb oversized_int_leaf (leaves (snd kv)) = false) fields ->
  existsb oversized_int_leaf (leaves (JObj fields)) = false.
Proof.
  intros H. simpl. rewrite existsb_flat_map.
  induction H as [|kv fields Hkv _ IH]; simpl; [reflexivity|].
  rewrite Hkv, IH. reflexivity.
Qed.

Lemma no_oversized_strings (l : list string) :
  existsb oversized_int_leaf (leaves (JList (map JStr l))) = false.
Proof. simpl. induction l as [|s l IH]; simpl; [reflexivity | exact IH]. Qed.

Lemma no_oversized_round4_or_none (v : float) :
  existsb oversized_int_leaf (leaves (round4_or_none v)) = false.
Proof. unfold round4_or_none. destruct (is_nan v); reflexivity. Qed.

Lemma no_oversized_small (n : nat) :
  (n <= 9)%nat -> existsb oversized_int_leaf (leaves (JInt (Z.of_nat n))) = false.
Proof.
  intros Hn. simpl. rewrite orb_false_r. apply negb_false_iff.
  unfold fits_int64_or_uint64. apply andb_true_intro.
  split; [apply Z.leb_le | apply Z.ltb_lt]; lia.
Qed.

(** Every value of the validation dict is the entry of a column. *)
Lemma check_accounting_equation_values (df : DataFrame) (tol : float) :
  Forall (fun kv => exists col, snd kv = equation_entry df tol col)
         (check_accounting_equation df tol).
Proof.
  unfold check_accounting_equation.
  assert (Hset : forall (d : dict json) k col,
             Forall (fun kv => exists col, snd kv = equation_entry df tol col) d ->
             Forall (fun kv => exists col, snd kv = equation_entry df tol col)
                    (dict_set d k (equation_entry df tol col))).
  { intros d k col Hd. induction d as [|[k' v'] d IHd]; simpl.
    - constructor; [exists col; reflexivity | constructor].
    - destruct (k' =? k)%string.
      + constructor; [exists col; reflexivity | exact (Forall_inv_tail Hd)].
      + constructor; [exact (Forall_inv Hd) | apply IHd, (Forall_inv_tail Hd)]. }
  assert (H : forall cols results,
             Forall (fun kv => exists col, snd kv = equation_entry df tol col) results ->
             Forall (fun kv => exists col, snd kv = equation_entry df tol col)
                    (fold_left (fun results c => dict_set results c (equation_entry df tol c))
                               cols results)).
  { induction cols as [|c cols IH]; intros results Hr; simpl; [exact Hr|].
    apply IH, Hset, Hr. }
  apply H. constructor.
Qed.

Lemma no_oversized_equation_entry (df : DataFrame) (tol : float) (col : period) :
  existsb oversized_int_leaf (leaves (equation_entry df tol col)) = false.
Proof. unfold equation_entry. destruct (0 <? _); reflexivity. Qed.

(** The only ints of a document of [compute_all] are the Piotroski signals
    and their sum. *)
Lemma compute_all_ints_small (ticker : string) (m : Market) :
  existsb oversized_int_leaf (leaves (compute_all ticker m)) = false.
Proof.
  unfold compute_all.
  destruct (try_compute_all ticker m) as [doc|e] eqn:Htry; [|reflexivity].
  unfold try_compute_all in Htry.
  apply bind_Ok in Htry as (raw & Hraw & Htry).
  apply bind_Ok in Htry as (data & Hdata & Hdoc).
  destruct (success_path_inv ticker m data doc
              (ex_intro _ raw (conj Hraw (conj Hdata Hdoc)))) as (f & d & _ & ->).
  set (x := read_figures data).
  destruct (piotroski_signals_range x (negb (is_nan f))) as (_ & _ & Hsum & Hle).
  unfold success_document. fold x.
  apply no_oversized_obj.
  repeat (apply Forall_cons; [cbn [snd]|]); try apply Forall_nil.
  - reflexivity.
  - destruct (currency data); reflexivity.
  - apply no_oversized_strings.
  - apply no_oversized_obj.
    refine (Forall_impl _ _ (check_accounting_equation_values _ _)).
    intros kv (col & ->). apply no_oversized_equation_entry.
  - apply no_oversized_obj.
    repeat (apply Forall_cons; [cbn [snd]; apply no_oversized_round4_or_none|]).
    apply Forall_nil.
  - apply no_oversized_obj.
    repeat (apply Forall_cons; [cbn [snd]; apply no_oversized_obj|]); try apply Forall_nil;
      repeat (apply Forall_cons; [cbn [snd]; apply no_oversized_round4_or_none|]);
      apply Forall_nil.
  - apply no_oversized_obj.
    repeat (apply Forall_cons; [cbn [snd]|]); try apply Forall_nil.
    + apply no_oversized_small. rewrite Hsum. exact Hle.
    + reflexivity.
    + apply no_oversized_obj. unfold piotroski_signals. cbn [map fst snd].
      repeat (apply Forall_cons;
              [cbn [snd]; apply no_oversized_small;
               match goal with |- context [signal ?c] => destruct c end; simpl; lia|]).
      apply Forall_nil.
  - apply no_oversized_obj.
    repeat (apply Forall_cons; [cbn [snd]|]); try apply Forall_nil.
    + destruct (beneish_m_score x); reflexivity.
    + destruct (beneish_reason x); reflexivity.
    + apply no_oversized_obj. unfold beneish_components. cbn [map fst snd].
      repeat (apply Forall_cons; [cbn [snd]; apply no_oversized_round4_or_none|]).
      apply Forall_nil.
  - apply no_oversized_obj.
    repeat (apply Forall_cons; [cbn [snd]|]); try apply Forall_nil.
    + destruct (altman_z_score x); reflexivity.
    + reflexivity.
    + destruct (altman_reason x); reflexivity.
    + apply no_oversized_obj.
      repeat (apply Forall_cons; [cbn [snd]; apply no_oversized_round4_or_none|]).
      apply Forall_nil.
  - apply no_oversized_obj.
    repeat (apply Forall_cons; [cbn [snd]; apply no_oversized_round4_or_none|]).
    apply Forall_nil.
  - apply no_oversized_obj.
    repeat (apply Forall_cons; [cbn [snd]; apply no_oversized_round4_or_none|]).
    apply Forall_nil.
  - destruct (calculate_alpha _ _ _); [apply no_oversized_round4_or_none | reflexivity].
  - apply no_oversized_strings.
Qed.

(** X7: What [sanitize_for_json] returns has no NaN or infinite leaf, whatever
    the document; on a document of [compute_all] it does return, the ints of
    the document being the Piotroski signals and score, and the result has no
    such leaf. *)
Theorem sanitize_for_json_finite (value : json) (ticker : string) (m : Market) :
  (forall clean, sanitize_for_json value = Ok clean ->
     forallb (fun leaf => negb (non_finite_leaf leaf)) (leaves clean) = true) /\
  exists clean,
    sanitize_for_json (compute_all ticker m) = Ok clean /\
    existsb non_finite_leaf (leaves clean) = false.
Proof.
  assert (Hclean : forall v clean, sanitize_for_json v = Ok clean ->
             forallb (fun leaf => negb (non_finite_leaf leaf)) (leaves clean) = true).
  { intros v clean H. apply sanitized_leaves in H.
    rewrite forallb_forall in *. intros leaf Hin.
    apply H in Hin. apply andb_true_iff in Hin. tauto. }
  split; [apply Hclean|].
  destruct (sanitize_for_json_outcome (compute_all ticker m)) as [(_ & clean & H) | (H & _)].
  - exists clean. split; [exact H|].
    apply Hclean in H.
    induction (leaves clean) as [|leaf l IH]; simpl in *; [reflexivity|].
    apply andb_true_iff in H as [H1 H2]. apply negb_true_iff in H1.
    rewrite H1. simpl. apply IH, H2.
  - rewrite compute_all_ints_small in H. discriminate.
Qed.

(** X8: Sanitizing keeps a document without NaN or infinite leaves and without
    an int outside the 64-bit ranges as it is; what it returns it returns
    again when applied to it; and it raises the [TypeError] of [np.isnan]
    exactly when the document holds an int outside the 64-bit ranges. *)
Theorem sanitize_for_json_idempotent (value : json) :
  (forallb (fun leaf => negb (non_finite_leaf leaf)) (leaves value) = true ->
   existsb oversized_int_leaf (leaves value) = false ->
   sanitize_for_json value = Ok value) /\
  (forall clean, sanitize_for_json value = Ok clean ->
     sanitize_for_json clean = Ok clean) /\
  (existsb oversized_int_leaf (leaves value) = true <->
   sanitize_for_json value = Raise isnan_type_error) /\
  (existsb oversized_int_leaf (leaves value) = false <->
   exists clean, sanitize_for_json value = Ok clean).
Proof.
  split; [|split; [|split]].
  - intros Hfin Hint. apply sanitize_for_json_fixed.
    rewrite forallb_forall in *. intros leaf Hin.
    rewrite (Hfin leaf Hin). simpl. apply negb_true_iff.
    destruct (oversized_int_leaf leaf) eqn:E; [|reflexivity].
    rewrite <- Hint. symmetry. apply existsb_exists. exists leaf. auto.
  - intros clean H. apply sanitize_for_json_fixed, (sanitized_leaves value), H.
  - destruct (sanitize_for_json_outcome value) as [(-> & clean & ->) | (-> & ->)];
      split; intros H; try reflexivity; discriminate H.
  - destruct (sanitize_for_json_outcome value) as [(-> & clean & ->) | (-> & ->)];
      split; intros H; try reflexivity; try discriminate H.
    + exists clean. reflexivity.
    + destruct H as [clean H]. discriminate H.
Qed.

(** X9: When sanitizing returns, it keeps the keys of every dict: a path that
    leads somewhere in the document leads, in the result, to what sanitizing
    returns there. *)
Theorem sanitize_for_json_keeps_paths (path : list string) (value clean sub : json) :
  sanitize_for_json value = Ok clean ->
  at_path path value = Some sub ->
  exists sub', sanitize_for_json sub = Ok sub' /\ at_path path clean = Some sub'.
Proof.
  revert value clean. induction path as [|k path IH]; intros value clean Hs Hp; simpl in Hp.
  - injection Hp as <-. exists clean. split; [exact Hs | reflexivity].
  - destruct value as [ | | | | | |fields]; simpl in Hp; try discriminate.
    simpl in Hs. apply bind_Ok in Hs as (fields' & Hfields & Hs). injection Hs as <-.
    apply map_result_Ok in Hfields.
    destruct (dict_get fields k) as [v|] eqn:Hv; [|discriminate].
    assert (Hget : exists v', sanitize_for_json v = Ok v' /\ dict_get fields' k = Some v').
    { induction Hfields as [|[k0 v0] kv' fields fields' Hkv _ IHf]; simpl in Hv;
        [discriminate|].
      simpl in Hkv. apply bind_Ok in Hkv as (v0' & Hv0 & Hkv). injection Hkv as <-.
      simpl. destruct (k0 =? k)%string.
      - injection Hv as <-. exists v0'. auto.
      - apply IHf, Hv. }
    destruct Hget as (v' & Hv' & Hget).
    destruct (IH v v' Hv' Hp) as (sub' & Hsub & Hpath).
    exists sub'. split; [exact Hsub|]. simpl. rewrite Hget. exact Hpath.
Qed.

Lemma sanitize_for_json_keeps_paths_witness :
  exists clean,
    sanitize_for_json (compute_all "ACME" Sample.acme) = Ok clean /\
    at_path ["validation"; "2021-12-31"; "delta"] clean = Some JNull.
Proof.
  assert (Hs : exists clean, sanitize_for_json (compute_all "ACME" Sample.acme) = Ok clean).
  { vm_compute. eexists. reflexivity. }
  destruct Hs as [clean Hs]. exists clean. split; [exact Hs|].
  destruct (sanitize_for_json_keeps_paths ["validation"; "2021-12-31"; "delta"]
              (compute_all "ACME" Sample.acme) clean (JNum infinity) Hs eq_refl)
    as (sub' & Hsub & Hpath).
  injection Hsub as <-. exact Hpath.
Defined.

(** ** [get_financials] and the two shapes of the document *)

(** X10: [get_financials] succeeds exactly when the provider hands back three
    statements, none of them empty; every failure carries the "Failed to
    fetch data" prefix and the ticker. *)
Theorem get_financials_outcome (ticker : string) (t : yf_ticker) :
  (forall raw, get_financials ticker t = Ok raw <->
     exists info,
       t = YfData (Some (raw_income raw)) (Some (raw_balance raw))
                  (Some (raw_cashflow raw)) info /\
       raw_info raw = info /\
       empty (raw_income raw) = false /\ empty (raw_balance raw) = false /\
       empty (raw_cashflow raw) = false) /\
  (forall e, get_financials ticker t = Raise e ->
     exists cause, e = "Failed to fetch data for " ++ ticker ++ ": " ++ cause).
Proof.
  split.
  - intros raw. split.
    + destruct t as [msg | [i|] [b|] [c|] info]; simpl; try discriminate.
      destruct (empty i) eqn:Ei; simpl; [discriminate|].
      destruct (empty b) eqn:Eb; simpl; [discriminate|].
      destruct (empty c) eqn:Ec; simpl; [discriminate|].
      intros [= <-]. simpl. exists info. auto.
    + intros (info & -> & Hinfo & Ei & Eb & Ec). simpl.
      rewrite Ei, Eb, Ec. simpl. destruct raw; simpl in *. subst. reflexivity.
  - intros e. destruct t as [msg | [i|] [b|] [c|] info]; simpl;
      try (intros [= <-]; eauto).
    destruct (empty i || empty b || empty c); intros [= <-]; eauto.
Qed.

(** X11: [compute_all] always returns a document: it holds the ticker and all
    twelve sections whether the computation succeeded or not, and an "error"
    entry exactly when a statement of the [try] block raised, with that
    message; the failure document has empty ratios and a single note. *)
Theorem compute_all_fail_soft (ticker : string) (m : Market) :
  let doc := compute_all ticker m in
  let sections :=
    ["currency"; "years"; "validation"; "ratios"; "dupont"; "piotroski"; "beneish";
     "altman"; "price_based"; "dividends"; "alpha"; "notes"] in
  at_path ["ticker"] doc = Some (JStr ticker) /\
  (forall k, In k sections -> exists sub, field k doc = Some sub) /\
  (forall e, try_compute_all ticker m = Raise e <-> field "error" doc = Some (JStr e)) /\
  (forall e, try_compute_all ticker m = Raise e ->
     at_path ["notes"] doc = Some (JList [JStr ("Error: " ++ e)]) /\
     at_path ["ratios"] doc = Some (JObj [])).
Proof.
  intros doc sections. unfold doc, compute_all.
  destruct (try_compute_all ticker m) as [d | e0] eqn:E.
  - unfold try_compute_all in E.
    destruct (get_financials ticker (statements m)) as [raw|]; [|discriminate].
    simpl in E. destruct (select_two_years raw) as [data|]; [|discriminate].
    simpl in E. unfold compute_selected in E.
    destruct (notna_and_positive (shares (read_figures data))) as [so|]; [|discriminate].
    simpl in E. destruct (notna_and_positive _) as [dp|]; [|discriminate].
    simpl in E. destruct (le_self _) as [le|]; [|discriminate].
    simpl in E. injection E as <-.
    split; [reflexivity|]. split.
    + intros k Hk. simpl in Hk.
      repeat (destruct Hk as [<- | Hk]; [eexists; reflexivity|]). destruct Hk.
    + split; [|intros e; discriminate].
      intros e. split; discriminate.
  - split; [reflexivity|]. split.
    + intros k Hk. simpl in Hk.
      repeat (destruct Hk as [<- | Hk]; [eexists; reflexivity|]). destruct Hk.
    + split.
      * intros e. simpl. split; [intros [= ->]; reflexivity | intros [= ->]; reflexivity].
      * intros e [= ->]. split; reflexivity.
Qed.

(** ** When the [try] block raises after the selection *)

(** The dividend per share is a float unless the dividend rate of the info
    snapshot is a string. *)
Lemma div_ps_cases (x : Figures) (shares_ok : bool) :
  (exists s, dividend_rate x = PyStr s /\ div_ps x shares_ok = PyStr s) \/
  ((forall s, dividend_rate x <> PyStr s) /\ exists g, div_ps x shares_ok = PyNum g).
Proof.
  unfold div_ps. destruct (dividend_rate x) as [|g|s]; simpl.
  - right. split; [discriminate|]. destruct (_ && _); eauto.
  - right. split; [discriminate|]. destruct (is_nan g); simpl; eauto.
    destruct (_ && _); eauto.
  - left. eauto.
Qed.

(** X12: Once two periods are selected, the computation raises exactly when the
    share count is [None] or a string, or the dividend rate is a string. *)
Theorem compute_selected_outcome (ticker : string) (m : Market) (data : Selected) :
  let x := read_figures data in
  ((exists doc, compute_selected ticker m data = Ok doc) <->
     (exists f, shares x = PyNum f) /\ (forall s, dividend_rate x <> PyStr s)) /\
  (shares x = PyNone -> (forall s, dividend_rate x <> PyStr s) ->
     compute_selected ticker m data
     = Raise "'<=' not supported between instances of 'NoneType' and 'NoneType'").
Proof.
  intros x. unfold compute_selected. fold x.
  destruct (shares x) as [|f|s] eqn:Hs; simpl.
  - destruct (div_ps_cases x false) as [(s & Hd & ->) | (Hd & g & ->)]; simpl.
    + split; [|intros _ Hn; exfalso; exact (Hn s Hd)].
      split; [intros (doc & H); discriminate H | intros [(f & Hf) _]; discriminate Hf].
    + split; [|reflexivity].
      split; [intros (doc & H); discriminate H | intros [(f & Hf) _]; discriminate Hf].
  - split; [|discriminate].
    destruct (div_ps_cases x (negb (is_nan f) && (0 <? f)))
      as [(s & Hd & ->) | (Hd & g & ->)]; simpl.
    + split; [intros (doc & H); discriminate H | intros [_ Hn]; exfalso; exact (Hn s Hd)].
    + split; [intros _; split; [eauto | exact Hd] | intros _; eauto].
  - split; [|discriminate].
    split; [intros (doc & H); discriminate H | intros [(f & Hf) _]; discriminate Hf].
Qed.

(** ** Reading the figures *)

(** The selected periods are columns of the three normalized statements. *)
Lemma selected_years_common (raw : RawData) (data : Selected) (y : period) :
  select_two_years raw = Ok data -> In y (years data) ->
  In y (columns (income data)) /\ In y (columns (balance data)) /\
  In y (columns (cashflow data)).
Proof.
  unfold select_two_years.
  destruct (List.length (common_years raw) <? 2)%nat; [discriminate|].
  intros [= <-]. simpl. intros Hy.
  apply common_years_spec.
  apply (Permutation_in _ (Permutation_sym (sorted_reverse_perm (common_years raw)))).
  rewrite <- (firstn_skipn 2 (sorted_reverse (common_years raw))).
  apply in_or_app. left. exact Hy.
Qed.

(** X13: A figure read for a selected period is the cell of that period, or NaN
    when the cell is missing: inside [compute_all] the lookup never falls
    back on another period. *)
Theorem selected_period_is_read (raw : RawData) (data : Selected)
    (df : DataFrame) (name : string) (y : period) (cells : list float) :
  select_two_years raw = Ok data ->
  In df [income data; balance data; cashflow data] ->
  In y (years data) ->
  loc (rows df) name = Some cells ->
  List.length cells = List.length (columns df) ->
  exists val, series_get (series df cells) y = Some val /\
              safe_get_field df [name] (Some y) nan = (if is_nan val then nan else val).
Proof.
  intros Hsel Hdf Hy Hloc Hwide.
  assert (Hcol : In y (columns df)).
  { destruct (selected_years_common raw data y Hsel Hy) as (Hi & Hb & Hc).
    simpl in Hdf. destruct Hdf as [<- | [<- | [<- | []]]]; assumption. }
  destruct (series_columns df cells Hwide) as [Hf _].
  apply mem_In in Hcol. rewrite <- Hf in Hcol.
  destruct (series_get_mem _ _ Hcol) as [val Hval].
  exists val. split; [exact Hval|].
  simpl. rewrite Hloc, Hcol, Hval. reflexivity.
Qed.

Lemma selected_period_is_read_witness :
  safe_get_field (normalize_field_names Sample.balance_sheet) ["TotalAssets"]
                 (Some "2022-12-31") nan = 900.
Proof.
  destruct (selected_period_is_read
              (mkRawData Sample.income_stmt Sample.balance_sheet Sample.cash_flow
                         Sample.market_info) _
              (normalize_field_names Sample.balance_sheet) "TotalAssets" "2022-12-31"
              [1000; 900; nan] eq_refl
              (or_intror (or_introl eq_refl)) (or_intror (or_introl eq_refl))
              eq_refl eq_refl)
    as (val & Hval & Hget).
  injection Hval as <-. exact Hget.
Defined.

(** X14: The first name found in the index decides: later names are not tried,
    even when the row found holds no value; and a result is NaN only if the
    default is. *)
Theorem safe_get_field_first_name (df : DataFrame) (name : string) (others : list string)
    (year_idx : option period) (default : float) :
  (mem name (index df) = true ->
     safe_get_field df (name :: others) year_idx default
     = safe_get_field df [name] year_idx default) /\
  (mem name (index df) = false ->
     safe_get_field df (name :: others) year_idx default
     = safe_get_field df others year_idx default) /\
  (is_nan default = false ->
     is_nan (safe_get_field df (name :: others) year_idx default) = false).
Proof.
  assert (Hloc : forall n, mem n (index df) = true <-> exists cells, loc (rows df) n = Some cells).
  { intros n. unfold index. induction (rows df) as [|[label cells] rs IH]; simpl.
    - split; [discriminate | intros (c & [=])].
    - rewrite (String.eqb_sym n label). destruct (label =? n)%string; simpl; [|exact IH].
      split; eauto. }
  split; [|split].
  - intros H. apply Hloc in H as (cells & H). simpl. rewrite H. reflexivity.
  - intros H. simpl. destruct (loc (rows df) name) as [cells|] eqn:E; [|reflexivity].
    assert (mem name (index df) = true) by (apply Hloc; eauto). congruence.
  - intros Hd. generalize (name :: others). intros names.
    induction names as [|n names IH]; simpl; [exact Hd|].
    destruct (loc (rows df) n) as [cells|]; [|exact IH].
    assert (Hfirst : is_nan match first_notna (map snd (series df cells)) with
                            | Some val => val
                            | None => default
                            end = false).
    { destruct (first_notna _) as [v|] eqn:E; [|exact Hd].
      destruct (first_notna_Some _ _ E) as (_ & _ & _ & _ & Hv). exact Hv. }
    destruct year_idx as [y|]; [|exact Hfirst].
    destruct (mem y _); [|exact Hfirst].
    destruct (series_get _ y) as [v|]; [|exact Hd].
    destruct (is_nan v) eqn:E; [exact Hd | exact E].
Qed.

(** ** More on the validator *)

(** X15: With distinct column labels the result has one entry per column, in
    column order: the entry of a period depends on that period only. *)
Theorem check_accounting_equation_per_column (df : DataFrame) (tol : float) :
  NoDup (columns df) ->
  check_accounting_equation df tol
  = map (fun col => (col, equation_entry df tol col)) (columns df).
Proof.
  unfold check_accounting_equation.
  assert (H : forall cols results,
             NoDup (map fst results ++ cols)%list ->
             fold_left (fun results c => dict_set results c (equation_entry df tol c))
                       cols results
             = (results ++ map (fun col => (col, equation_entry df tol col)) cols)%list).
  { induction cols as [|c cols IH]; intros results Hnd; simpl.
    - rewrite app_nil_r. reflexivity.
    - assert (Hset : dict_set results c (equation_entry df tol c)
                     = (results ++ [(c, equation_entry df tol c)])%list).
      { apply NoDup_remove_2 in Hnd.
        assert (Hc : ~ In c (map fst results)) by (intros Hin; apply Hnd, in_or_app; auto).
        clear - Hc. induction results as [|[k v] results IHr]; simpl; [reflexivity|].
        destruct (k =? c)%string eqn:E.
        - apply String.eqb_eq in E. subst. exfalso. apply Hc. left. reflexivity.
        - f_equal. apply IHr. intros Hin. apply Hc. right. exact Hin. }
      rewrite Hset, IH.
      + rewrite <- app_assoc. reflexivity.
      + rewrite map_app. simpl. rewrite <- app_assoc. exact Hnd. }
  intros Hnd. apply (H (columns df) []). exact Hnd.
Qed.

Lemma check_accounting_equation_per_column_witness :
  map fst (check_accounting_equation Sample.patchy default_tol)
  = ["2023-12-31"; "2022-12-31"].
Proof.
  rewrite (check_accounting_equation_per_column Sample.patchy default_tol).
  - reflexivity.
  - repeat constructor; simpl; intuition discriminate.
Defined.

(** X16: A period never validates on missing data: when total assets,
    liabilities or equity is unknown, its entry has [ok = false]. *)
Theorem equation_entry_unknown_not_ok (df : DataFrame) (tol : float) (col : period) :
  let ta := safe_get_field df ["TotalAssets"] (Some col) nan in
  let tl := safe_get_field df ["TotalLiabilities"] (Some col) nan in
  let te := safe_get_field df ["TotalStockholderEquity"] (Some col) nan in
  (is_nan ta = true \/ is_nan tl = true \/ is_nan te = true ->
     field "ok" (equation_entry df tol col) = Some (JBool false)) /\
  (field "ok" (equation_entry df tol col) = Some (JBool true) ->
     (0 <? ta) = true /\ (abs (ta - (tl + te)) / ta <=? tol) = true).
Proof.
  intros ta tl te. unfold equation_entry. fold ta tl te. split.
  - intros H. destruct (0 <? ta) eqn:Hpos; [|reflexivity].
    simpl. do 2 f_equal. apply FloatFacts.leb_nan_l.
    apply NanFacts.div_nan. left. apply NanFacts.abs_nan, NanFacts.sub_nan.
    destruct H as [H | H]; [left; exact H | right; apply NanFacts.add_nan, H].
  - destruct (0 <? ta); simpl; [|discriminate].
    intros [= ->]. auto.
Qed.

(** ** [collect_missing] *)

(** X17: A note "section:field" is produced exactly for the needed fields that are
    not row labels of the section's table, or whose section has no table. *)
Theorem collect_missing_spec
    (df_map : dict DataFrame) (needed : dict (list string)) (note : string) :
  In note (collect_missing df_map needed) <->
  exists section fields f,
    In (section, fields) needed /\ In f fields /\ note = section ++ ":" ++ f /\
    match dict_get df_map section with
    | None => True
    | Some df => ~ In f (index df)
    end.
Proof.
  unfold collect_missing. rewrite in_flat_map. split.
  - intros ([section fields] & Hin & Hnote).
    destruct (dict_get df_map section) as [df|] eqn:E.
    + apply in_flat_map in Hnote as (f & Hf & Hnote).
      destruct (mem f (index df)) eqn:M; [destruct Hnote|].
      destruct Hnote as [<- | []].
      exists section, fields, f. rewrite E. repeat split; auto.
      intros Hi. apply mem_In in Hi. congruence.
    + apply in_map_iff in Hnote as (f & <- & Hf).
      exists section, fields, f. rewrite E. auto.
  - intros (section & fields & f & Hin & Hf & -> & Hmiss).
    exists (section, fields). split; [exact Hin|].
    destruct (dict_get df_map section) as [df|].
    + apply in_flat_map. exists f. split; [exact Hf|].
      destruct (mem f (index df)) eqn:M; [apply mem_In in M; contradiction | left; reflexivity].
    + apply in_map_iff. exists f. auto.
Qed.

(** ** DuPont products and per-share ratios *)

(** X18: The DuPont products are all-or-nothing too: the 3-step ROE (and the
    adjusted ROE, which is the same number) is null as soon as one of its
    three factors is unknown, and the 5-step ROE as soon as one of its five
    factors is. *)
Theorem dupont_unknown_factor (ticker : string) (m : Market) (data : Selected) (doc : json) :
  success_path ticker m data doc ->
  let x := read_figures data in
  (is_nan (npm x) = true \/ is_nan (asset_turnover x) = true \/
   is_nan (equity_multiplier x) = true ->
     at_path ["dupont"; "roe_3step"; "roe"] doc = Some JNull /\
     at_path ["ratios"; "roe_adjusted"] doc = Some JNull) /\
  (is_nan (tax_burden x) = true \/ is_nan (interest_burden x) = true \/
   is_nan (operating_margin x) = true \/ is_nan (asset_turnover x) = true \/
   is_nan (equity_multiplier x) = true ->
     at_path ["dupont"; "roe_5step"; "roe"] doc = Some JNull) /\
  at_path ["ratios"; "roe_adjusted"] doc = at_path ["dupont"; "roe_3step"; "roe"] doc.
Proof.
  intros H x. destruct (success_path_inv _ _ _ _ H) as (f & d & _ & ->). fold x.
  split; [|split; [|reflexivity]].
  - intros Hn.
    assert (Hp : is_nan (roe_dupont_3 x) = true).
    { unfold roe_dupont_3. destruct Hn as [Hn | [Hn | Hn]].
      - apply NanFacts.mul_nan. left. apply NanFacts.mul_nan. auto.
      - apply NanFacts.mul_nan. left. apply NanFacts.mul_nan. auto.
      - apply NanFacts.mul_nan. auto. }
    simpl. unfold roe_adjusted, round4_or_none. rewrite Hp. auto.
  - intros Hn.
    assert (Hp : is_nan (roe_dupont_5 x) = true).
    { unfold roe_dupont_5. destruct Hn as [Hn | [Hn | [Hn | [Hn | Hn]]]].
      - do 4 (apply NanFacts.mul_nan; left). exact Hn.
      - do 3 (apply NanFacts.mul_nan; left). apply NanFacts.mul_nan. auto.
      - do 2 (apply NanFacts.mul_nan; left). apply NanFacts.mul_nan. auto.
      - apply NanFacts.mul_nan. left. apply NanFacts.mul_nan. auto.
      - apply NanFacts.mul_nan. auto. }
    simpl. unfold round4_or_none. rewrite Hp. reflexivity.
Qed.

Lemma dupont_unknown_factor_witness :
  at_path ["dupont"; "roe_5step"; "roe"] (compute_all "SPRS" Sample.sparse) = Some JNull.
Proof.
  destruct sparse_success as [data Hs].
  destruct Hs as (raw & H1 & H2 & H3). injection H1 as <-. injection H2 as <-.
  pose proof (dupont_unknown_factor "SPRS" Sample.sparse _ _
                (ex_intro _ _ (conj eq_refl (conj eq_refl H3)))) as (_ & H5 & _).
  apply H5. left. reflexivity.
Defined.

(** X19: Without a usable share count (missing, NaN, zero or negative) the
    earnings per share are unknown, so P/E, P/S and PEG are null; P/B falls
    back on the book value of the info snapshot. *)
Theorem per_share_without_shares (ticker : string) (m : Market) (data : Selected) (doc : json) :
  success_path ticker m data doc ->
  let x := read_figures data in
  notna_and_positive (shares x) = Ok false ->
  at_path ["price_based"; "pe"] doc = Some JNull /\
  at_path ["price_based"; "ps"] doc = Some JNull /\
  at_path ["price_based"; "peg"] doc = Some JNull /\
  at_path ["price_based"; "pb"] doc
    = Some (round4_or_none (safe_div_v (price x) (book_value x))) /\
  at_path ["dividends"; "dividend_payout_ratio"] doc = Some JNull.
Proof.
  intros H x Hso. destruct (success_path_inv _ _ _ _ H) as (f & d & Hs & ->). fold x in Hs.
  fold x. rewrite Hs in Hso. simpl in Hso. injection Hso as Hso. rewrite Hso.
  assert (Hv : forall v, safe_div_v v (PyNum nan) = nan).
  { intros [|a|s]; try reflexivity. simpl. unfold safe_div.
    rewrite orb_true_r. reflexivity. }
  simpl. unfold pe, ps, peg, pe, pb, eps_t, sps_t, bps_t, dividend_payout_ratio, eps_t.
  rewrite !Hv. repeat split; reflexivity.
Qed.

Lemma per_share_without_shares_witness :
  at_path ["price_based"; "pe"] (compute_all "SPRS" Sample.sparse) = Some JNull.
Proof.
  destruct sparse_success as [data Hs].
  destruct Hs as (raw & H1 & H2 & H3). injection H1 as <-. injection H2 as <-.
  pose proof (per_share_without_shares "SPRS" Sample.sparse _ _
                (ex_intro _ _ (conj eq_refl (conj eq_refl H3))) eq_refl) as (Hpe & _).
  exact Hpe.
Defined.
